(** * SSE disclosure link collectors: a shallow embedding

    The repository holds two scripts that share one pipeline:

    - [sse_links_downloader.py]            (a fixed list of codes), and
    - [sse_links_mainboard_downloader.py]  (codes read from a CSV file).

    Both query the exchange's bulletin endpoint per (code, year), normalise
    the records, drop duplicates by resolved URL and write one table per
    year.  The embedding below follows the Python text function by function.
    The network, the sleeps, the console and the output files are effects:
    they are threaded through a small monad that carries the state of the
    outside world, can raise a Python exception and records what the program
    did in a trace. *)

From Stdlib Require Import ZArith NArith List String Ascii PrimFloat DecimalString Sorted.
From Stdlib Require DecimalPos DecimalZ.
From stdpp Require Import gmap list.

Local Open Scope Z_scope.
Set Warnings "-register-all".

(** ** Python values *)

(** A Python [str] is a sequence of Unicode code points. *)
Abbreviation pystr := (list N).

(** A string literal of the source whose characters are all ASCII. *)
Definition lit (s : string) : pystr := map N_of_ascii (list_ascii_of_string s).
Arguments lit s%_string.

(** [str.isspace] on one code point: the characters [str.strip()] removes. *)
Definition isspace (c : N) : bool :=
  ((0x09 <=? c) && (c <=? 0x0D) || (0x1C <=? c) && (c <=? 0x20)
   || (c =? 0x85) || (c =? 0xA0) || (c =? 0x1680)
   || (0x2000 <=? c) && (c <=? 0x200A)
   || (c =? 0x2028) || (c =? 0x2029) || (c =? 0x202F) || (c =? 0x205F)
   || (c =? 0x3000))%N.

Fixpoint lstrip (s : pystr) : pystr :=
  match s with
  | c :: s' => if isspace c then lstrip s' else s
  | [] => []
  end.

Definition rstrip (s : pystr) : pystr := rev (lstrip (rev s)).

(** [s.strip()] *)
Definition strip (s : pystr) : pystr := rstrip (lstrip s).

(** [s.startswith(prefix)] *)
Fixpoint startswith (s prefix : pystr) : bool :=
  match prefix, s with
  | [], _ => true
  | p :: prefix', c :: s' => (c =? p)%N && startswith s' prefix'
  | _ :: _, [] => false
  end.

(** [str(z)] and [f"{z}"] for an [int]. *)
Definition str_of_int (z : Z) : pystr := lit (NilZero.string_of_int (Z.to_int z)).

(** What [json.loads] can produce.  A [PDict] lists the members in the order
    they were inserted; a later member with the same key replaces an earlier
    one, as in a Python [dict]. *)
Inductive pyval :=
| PNone
| PBool (b : bool)
| PInt (z : Z)
| PFloat (f : float)
| PStr (s : pystr)
| PList (l : list pyval)
| PDict (d : list (pystr * pyval)).

(** Truth value of an object, as [if], [not] and [or] test it. *)
Definition truthy (v : pyval) : bool :=
  match v with
  | PNone => false
  | PBool b => b
  | PInt z => negb (z =? 0)
  | PFloat f => negb (PrimFloat.eqb f 0%float)
  | PStr s => negb (Nat.eqb (length s) 0)
  | PList l => negb (Nat.eqb (length l) 0)
  | PDict d => negb (Nat.eqb (length d) 0)
  end.

(** [a or b] *)
Definition py_or (a b : pyval) : pyval := if truthy a then a else b.

(** Lookup in the members of a dict: the last insertion wins. *)
Fixpoint lookup_last {V} (k : pystr) (d : list (pystr * V)) : option V :=
  match d with
  | [] => None
  | (k', v) :: d' =>
      match lookup_last k d' with
      | Some v' => Some v'
      | None => if decide (k' = k) then Some v else None
      end
  end.

(** Keys of a dict in iteration order: each key at its first insertion. *)
Fixpoint dict_keys {V} (d : list (pystr * V)) (seen : list pystr) : list pystr :=
  match d with
  | [] => []
  | (k, _) :: d' =>
      if decide (k ∈ seen) then dict_keys d' seen else k :: dict_keys d' (k :: seen)
  end.

(** Python exceptions the scripts can meet; all derive from [Exception]. *)
Inductive exn :=
| RequestException (why : pystr)  (* [session.request]: connection, timeout, ... *)
| HTTPError (status : Z)          (* [resp.raise_for_status()] *)
| JSONDecodeError                 (* [resp.json()] on a body that is not JSON *)
| AttributeError                  (* a method the object does not have *)
| TypeError                       (* [len] of an object without a length *)
| OSError (why : pystr).          (* [open] on a missing or unreadable file *)

(** ** Configuration (the constants at the top of both scripts) *)

Definition START_YEAR : Z := 2022.
Definition END_YEAR : Z := 2023.
Definition URL_QUERY_COMPANY : pystr :=
  lit "https://query.sse.com.cn/security/stock/queryCompanyBulletin.do".
Definition URL_PDF_BASE : pystr := lit "https://static.sse.com.cn".
Definition HEADERS : list (pystr * pystr) :=
  [ (lit "Referer", lit "https://www.sse.com.cn/disclosure/listedinfo/announcement/");
    (lit "User-Agent", lit "Mozilla/5.0") ].
Definition MAX_RETRIES : Z := 3.

(** [sse_links_downloader.py] only. *)
Definition CODES : list pystr := [ lit "600000"; lit "600519"; lit "601318" ].
(** [sse_links_mainboard_downloader.py] only. *)
Definition CODES_CSV : pystr := lit "mainboard_codes.csv".

(** The two scripts. *)
Inductive script := Links | Mainboard.

(** ** Requests, responses, rows and the trace *)

(** The arguments of [session.request(method, url, timeout=15, **kwargs)]. *)
Record request := {
  req_method : pystr;
  req_url : pystr;
  req_timeout : Z;
  req_headers : list (pystr * pystr);
  req_params : list (pystr * pystr)
}.

(** What the scripts use of a [requests.Response]: the status code that
    [raise_for_status] tests, and the value [resp.json()] parses the body to
    ([None] when the body is not JSON). *)
Record response := {
  status_code : Z;
  json : option pyval
}.

(** A normalised record, the dict appended to [summary_rows]. *)
Record row := {
  code : pystr;
  title : pystr;
  date : pystr;
  url : pystr
}.

(** A row that [csv.DictReader] yields: a value per header name, [None] for
    a column the line is too short to fill. *)
Abbreviation csv_row := (list (pystr * option pystr)).

(** The lines the scripts print, by their tag and their arguments. *)
Inductive message :=
| WarnRequestFailed (attempt max_retries : Z) (e : exn)
| InfoFetched (code : pystr) (year : Z) (n : Z)
| InfoLoaded (path : pystr) (n : Z)
| YearBanner (year : Z)
| CodeBanner (code : pystr) (position : option (Z * Z))
| ErrorFetch (code : pystr) (year : Z) (e : exn)
| Dup (pdf_url : pystr)
| Link (code date title : pystr) (pdf_url : option pystr)
| OkWritten (year : Z) (csv_name : pystr)
| WarnNoRecords (year : Z)
| AllDone.

(** What a run does to the outside, in order. *)
Inductive event :=
| EvRequest (r : request)                  (* [session.request] is called *)
| EvSleep (secs : pyval)                   (* [time.sleep(secs)] *)
| EvPrint (m : message)                    (* [print] *)
| EvWriteCsv (csv_name : pystr) (fieldnames : list pystr) (rows : list row).
                                           (* header row, then the rows *)

(** ** The monad of the scripts

    A computation starts from a state of the world, ends in a value or in a
    raised exception, leaves the world in a new state and has emitted a
    trace.  Printing and writing the output file are taken to succeed. *)

Inductive outcome (A : Type) :=
| Ret (a : A)
| Raise (e : exn).
Arguments Ret {A} a.
Arguments Raise {A} e.

Definition M (W A : Type) : Type := W -> outcome A * W * list event.

#[global] Instance M_ret {W} : MRet (M W) :=
  fun A a w => (Ret a, w, []).

#[global] Instance M_bind {W} : MBind (M W) :=
  fun A B f m w =>
    match m w with
    | (Ret a, w1, t1) => let '(r, w2, t2) := f a w1 in (r, w2, t1 ++ t2)
    | (Raise e, w1, t1) => (Raise e, w1, t1)
    end.

Definition raise {W A} (e : exn) : M W A := fun w => (Raise e, w, []).

Definition emit {W} (ev : event) : M W unit := fun w => (Ret tt, w, [ev]).

(** [try: m  except Exception as e: ...]: the exception, if any, is handed
    to the code that follows instead of being propagated. *)
Definition try_ {W A} (m : M W A) : M W (exn + A) :=
  fun w =>
    match m w with
    | (Ret a, w1, t1) => (Ret (inr a), w1, t1)
    | (Raise e, w1, t1) => (Ret (inl e), w1, t1)
    end.

(** [for x in l: s = body(x, s)], where [s] stands for the variables the
    body updates. *)
Fixpoint for_ {W A S} (l : list A) (body : A -> S -> M W S) (s : S) : M W S :=
  match l with
  | [] => mret s
  | x :: l' => s' ← body x s; for_ l' body s'
  end.

Definition print {W} (m : message) : M W unit := emit (EvPrint m).
Definition sleep {W} (secs : pyval) : M W unit := emit (EvSleep secs).

(** [range(a, b)] *)
Definition range (a b : Z) : list Z :=
  map (fun i => a + Z.of_nat i) (seq 0 (Z.to_nat (b - a))).

(** [enumerate(l, start)] *)
Fixpoint enumerate {A} (l : list A) (start : Z) : list (Z * A) :=
  match l with
  | [] => []
  | x :: l' => (start, x) :: enumerate l' (start + 1)
  end.

(** ** Operations on values that can raise *)

(** [obj.get(key, default)]: only a dict has the method. *)
Definition py_get {W} (obj : pyval) (key : pystr) (fallback : pyval) : M W pyval :=
  match obj with
  | PDict d => mret (default fallback (lookup_last key d))
  | _ => raise AttributeError
  end.

(** [obj.strip()]: only a [str] has the method. *)
Definition py_strip {W} (obj : pyval) : M W pystr :=
  match obj with
  | PStr s => mret (strip s)
  | _ => raise AttributeError
  end.

(** [len(obj)] *)
Definition py_len {W} (obj : pyval) : M W Z :=
  match obj with
  | PStr s => mret (Z.of_nat (length s))
  | PList l => mret (Z.of_nat (length l))
  | PDict d => mret (Z.of_nat (length (dict_keys d [])))
  | _ => raise TypeError
  end.

(** The items [for item in obj] visits. *)
Definition py_iter {W} (obj : pyval) : M W (list pyval) :=
  match obj with
  | PStr s => mret (map (fun c => PStr [c]) s)
  | PList l => mret l
  | PDict d => mret (map PStr (dict_keys d []))
  | _ => raise TypeError
  end.

(** ** URL resolution (the [if] that completes [relative_url] in [main]) *)

Definition pdf_url (relative_url : pystr) : pystr :=
  if negb (startswith relative_url (lit "http"))
  then URL_PDF_BASE ++ relative_url
  else relative_url.

(** The per-record pause of each script, [time.sleep(0.2)] and
    [time.sleep(0.1)]. *)
Definition link_pause (sc : script) : float :=
  match sc with
  | Links => 0x1.999999999999ap-3%float
  | Mainboard => 0x1.999999999999ap-4%float
  end.

(** [f"summary_links_{year}.csv"], [f"summary_mainboard_links_{year}.csv"] *)
Definition csv_name (sc : script) (year : Z) : pystr :=
  match sc with
  | Links => lit "summary_links_" ++ str_of_int year ++ lit ".csv"
  | Mainboard => lit "summary_mainboard_links_" ++ str_of_int year ++ lit ".csv"
  end.

Definition fieldnames : list pystr := [ lit "code"; lit "title"; lit "date"; lit "url" ].

Section Scripts.

(** The outside world: what [session.request] answers (an exception or a
    response) and how it changes the world, and what the rows of the file at
    a path are when [open] and [csv.DictReader] read it. *)
Context {W : Type}.
Variable session_request : request -> W -> (exn + response) * W.
Variable read_csv : pystr -> W -> exn + list csv_row.

(** ** [request_with_retry] *)

(** [resp.raise_for_status()] *)
Definition raise_for_status (resp : response) : M W unit :=
  if (400 <=? status_code resp) && (status_code resp <? 600)
  then raise (HTTPError (status_code resp))
  else mret tt.

(** The body of the [try]: one request and its status check. *)
Definition attempt_request (req : request) : M W response :=
  emit (EvRequest req);;
  resp ← (fun w => match session_request req w with
                   | (inr resp, w') => (Ret resp, w', [])
                   | (inl e, w') => (Raise e, w', [])
                   end);
  raise_for_status resp;;
  mret resp.

(** The [for attempt in range(1, max_retries + 1)] loop.  When the range is
    exhausted without a [return] or a [raise] the function returns [None]. *)
Fixpoint retry_loop (attempts : list Z) (max_retries : Z) (req : request)
  : M W (option response) :=
  match attempts with
  | [] => mret None
  | attempt :: attempts' =>
      r ← try_ (attempt_request req);
      match r with
      | inr resp => mret (Some resp)
      | inl e =>
          print (WarnRequestFailed attempt max_retries e);;
          if attempt =? max_retries then raise e
          else sleep (PInt (2 * attempt));; retry_loop attempts' max_retries req
      end
  end.

Definition request_with_retry (method url : pystr) (max_retries : Z)
    (headers params : list (pystr * pystr)) : M W (option response) :=
  retry_loop (range 1 (max_retries + 1)) max_retries
    {| req_method := method; req_url := url; req_timeout := 15;
       req_headers := headers; req_params := params |}.

(** ** [fetch_reports_for_year] *)

Definition fetch_params (code : pystr) (year : Z) : list (pystr * pystr) :=
  let begin_date := str_of_int year ++ lit "-01-01" in
  let end_date := str_of_int year ++ lit "-12-31" in
  [ (lit "isPagination", lit "false");
    (lit "productId", code);
    (lit "keyWord", lit "");
    (lit "securityType", lit "0101");
    (lit "reportType2", lit "DQBG");
    (lit "reportType", lit "YEARLY");
    (lit "beginDate", begin_date);
    (lit "endDate", end_date) ].

(** [resp.json()]; [resp] is [None] when the retry loop ran no attempt. *)
Definition resp_json (resp : option response) : M W pyval :=
  match resp with
  | None => raise AttributeError
  | Some r => match json r with
              | Some v => mret v
              | None => raise JSONDecodeError
              end
  end.

Definition fetch_reports_for_year (code : pystr) (year : Z) : M W pyval :=
  resp ← request_with_retry (lit "GET") URL_QUERY_COMPANY MAX_RETRIES
           HEADERS (fetch_params code year);
  data ← resp_json resp;
  results ← py_get data (lit "result") (PList []);
  n ← py_len results;
  print (InfoFetched code year n);;
  mret results.

(** ** [load_codes_from_csv] (Mainboard script) *)

(** [row.get(key)] on a row of the reader. *)
Definition row_get (r : csv_row) (key : pystr) : pyval :=
  match lookup_last key r with
  | Some (Some s) => PStr s
  | _ => PNone
  end.

(** The header name made of the four characters U+8BC1 U+5238 U+4EE3 U+7801
    ("security code"). *)
Definition zhengquan_daima : pystr := [0x8BC1; 0x5238; 0x4EE3; 0x7801]%N.

(** [open] and the reader's rows: an exception when the file cannot be
    read. *)
Definition open_csv (path : pystr) : M W (list csv_row) :=
  fun w => match read_csv path w with
           | inr rows => (Ret rows, w, [])
           | inl e => (Raise e, w, [])
           end.

(** The body of [for row in reader], [codes] being the list it appends to. *)
Definition load_row (r : csv_row) (codes : list pystr) : M W (list pystr) :=
  code ← py_strip (py_or (py_or (py_or (row_get r (lit "code"))
                                        (row_get r zhengquan_daima))
                                (row_get r (lit "stock_code")))
                         (PStr []));
  if truthy (PStr code) then mret (codes ++ [code]) else mret codes.

Definition load_codes_from_csv (path : pystr) : M W (list pystr) :=
  rows ← open_csv path;
  codes ← for_ rows load_row [];
  print (InfoLoaded path (Z.of_nat (length codes)));;
  mret codes.

(** ** [main] *)

(** Reading one field of a raw record and trimming it:
    [item.get(key, "").strip()] in the Links script,
    [(item.get(key) or "").strip()] in the Mainboard script. *)
Definition read_field (sc : script) (item : pyval) (key : pystr) : M W pystr :=
  match sc with
  | Links => v ← py_get item key (PStr []); py_strip v
  | Mainboard => v ← py_get item key PNone; py_strip (py_or v (PStr []))
  end.

(** The body of [for item in reports]; the pair is [summary_rows] and
    [seen_urls]. *)
Definition handle_item (sc : script) (code : pystr) (item : pyval)
    (st : list row * gset pystr) : M W (list row * gset pystr) :=
  let '(summary_rows, seen_urls) := st in
  title ← read_field sc item (lit "TITLE");
  date ← read_field sc item (lit "SSEDATE");
  relative_url ← read_field sc item (lit "URL");
  if negb (truthy (PStr relative_url)) then mret st
  else
    let pdf_url := pdf_url relative_url in
    if decide (pdf_url ∈ seen_urls) then
      print (Dup pdf_url);; mret st
    else
      print (Link code date title
               (match sc with Links => Some pdf_url | Mainboard => None end));;
      sleep (PFloat (link_pause sc));;
      mret (summary_rows ++ [ {| code := code; title := title; date := date;
                                 url := pdf_url |} ],
            {[ pdf_url ]} ∪ seen_urls).

(** The body of [for code in CODES] / [for idx, code in enumerate(codes, 1)]. *)
Definition handle_code (sc : script) (year total : Z) (idx_code : Z * pystr)
    (st : list row * gset pystr) : M W (list row * gset pystr) :=
  let '(idx, code) := idx_code in
  print (CodeBanner code
           (match sc with Links => None | Mainboard => Some (idx, total) end));;
  r ← try_ (fetch_reports_for_year code year);
  match r with
  | inl e => print (ErrorFetch code year e);; mret st
  | inr reports => items ← py_iter reports; for_ items (handle_item sc code) st
  end.

(** The [if summary_rows: ... else: ...] that ends a year.  Opening the
    file, the header and the rows are one event that succeeds: an error of
    [open] or of the encoder while the rows are written is not modelled, so
    no property below speaks of a table written in part. *)
Definition write_summary (sc : script) (year : Z) (summary_rows : list row)
  : M W unit :=
  match summary_rows with
  | _ :: _ =>
      emit (EvWriteCsv (csv_name sc year) fieldnames summary_rows);;
      print (OkWritten year (csv_name sc year))
  | [] => print (WarnNoRecords year)
  end.

(** The body of [for year in range(START_YEAR, END_YEAR + 1)]. *)
Definition handle_year (sc : script) (codes : list pystr) (year : Z) : M W unit :=
  print (YearBanner year);;
  st ← for_ (enumerate codes 1)
         (handle_code sc year (Z.of_nat (length codes))) ([], ∅);
  write_summary sc year st.1.

(** The year loop over any list of years and any list of codes. *)
Definition run_years (sc : script) (codes : list pystr) (years : list Z)
  : M W unit :=
  for_ years (fun year _ => handle_year sc codes year) tt.

Definition main (sc : script) : M W unit :=
  codes ← match sc with
          | Links => mret CODES
          | Mainboard => load_codes_from_csv CODES_CSV
          end;
  run_years sc codes (range START_YEAR (END_YEAR + 1));;
  print AllDone.

End Scripts.

(** ** A scripted world

    The world is the list of answers still to come, one per request, in
    order; when the list is used up the connection fails.  The codes file is
    fixed. *)
Module Scripted.

Definition session_request (_ : request) (w : list (exn + response))
  : (exn + response) * list (exn + response) :=
  match w with
  | a :: w' => (a, w')
  | [] => (inl (RequestException (lit "connection refused")), [])
  end.

Definition read_csv (file : option (list csv_row)) (_ : pystr)
    (_ : list (exn + response)) : exn + list csv_row :=
  match file with
  | Some rows => inr rows
  | None => inl (OSError (lit "No such file or directory"))
  end.

(** A 200 response whose body is [{"result": records}]. *)
Definition ok (records : list pyval) : exn + response :=
  inr {| status_code := 200; json := Some (PDict [(lit "result", PList records)]) |}.

(** A raw record with the three fields as strings. *)
Definition record (title date url : string) : pyval :=
  PDict [(lit "TITLE", PStr (lit title)); (lit "SSEDATE", PStr (lit date));
         (lit "URL", PStr (lit url))].

End Scripted.

(** * Vocabulary of the properties *)

(** ** Traces and what holds along a run *)

(** [hoare m P Q]: from every world, every event [m] emits satisfies [P],
    and when [m] ends in a value the value satisfies [Q]. *)
Definition hoare {W A} (m : M W A) (P : event → Prop) (Q : A → Prop) : Prop :=
  ∀ w, Forall P (m w).2 ∧
       match (m w).1.1 with Ret a => Q a | Raise _ => True end.

(** A computation that touches nothing outside: no event, the same world. *)
Definition pure {W A} (m : M W A) : Prop := ∀ w, ∃ r, m w = (r, w, []).

(** Events other than writing a table. *)
Definition not_a_write (ev : event) : Prop :=
  match ev with EvWriteCsv _ _ _ => False | _ => True end.

(** Every table written satisfies [R], a property of its header and rows. *)
Definition tables (R : list pystr → list row → Prop) (ev : event) : Prop :=
  match ev with EvWriteCsv _ header rows => R header rows | _ => True end.

(** The tables a trace writes, in order: file name and rows. *)
Fixpoint written (t : list event) : list (pystr * list row) :=
  match t with
  | [] => []
  | EvWriteCsv name _ rows :: t' => (name, rows) :: written t'
  | _ :: t' => written t'
  end.

(** The arguments of the sleeps of a trace, in order. *)
Fixpoint sleeps (t : list event) : list pyval :=
  match t with
  | [] => []
  | EvSleep secs :: t' => secs :: sleeps t'
  | _ :: t' => sleeps t'
  end.

(** Besides requests, fetching only prints and sleeps. *)
Definition quiet (P : event → Prop) : Prop :=
  (∀ m, P (EvPrint m)) ∧ (∀ secs, P (EvSleep secs)).

(** The [url] of a row is the resolution of a non-empty fragment. *)
Definition resolved (r : row) : Prop :=
  ∃ relative_url : pystr, relative_url ≠ [] ∧ url r = pdf_url relative_url.

(** What holds of [summary_rows] and [seen_urls] throughout a year: the URLs
    of the rows are pairwise distinct, all in the set, and all resolved. *)
Definition year_inv (st : list row * gset pystr) : Prop :=
  NoDup (url <$> st.1) ∧
  (∀ u, u ∈ url <$> st.1 → u ∈ st.2) ∧
  Forall resolved st.1.

(** What holds of a written table. *)
Definition table_ok (header : list pystr) (rows : list row) : Prop :=
  header = fieldnames ∧ rows ≠ [] ∧ NoDup (url <$> rows) ∧ Forall resolved rows.

(** The line printed when a code is taken up. *)
Definition code_banner (sc : script) (total idx : Z) (code : pystr) : event :=
  EvPrint (CodeBanner code
             (match sc with Links => None | Mainboard => Some (idx, total) end)).

(** ** Attempts of the retry loop *)

(** What the loop emits for failed attempts number [attempt], [attempt + 1],
    ... that raised [es] and were each followed by a sleep. *)
Fixpoint retry_events (req : request) (max_retries attempt : Z) (es : list exn)
  : list event :=
  match es with
  | [] => []
  | e :: es' =>
      [ EvRequest req; EvPrint (WarnRequestFailed attempt max_retries e);
        EvSleep (PInt (2 * attempt)) ]
      ++ retry_events req max_retries (attempt + 1) es'
  end.

(** The next [n] attempts from world [w] all fail: the exceptions they raise
    and the world after them. *)
Fixpoint failed_attempts {W} (session_request : request → W → (exn + response) * W)
    (req : request) (n : nat) (w : W) : option (list exn * W) :=
  match n with
  | O => Some ([], w)
  | S n' =>
      match attempt_request session_request req w with
      | (Raise e, w1, _) =>
          match failed_attempts session_request req n' w1 with
          | Some (es, w2) => Some (e :: es, w2)
          | None => None
          end
      | (Ret _, _, _) => None
      end
  end.

(** ** Fields of a raw record *)

(** A field that reads as text in script [sc]: absent, a string, or, in the
    Mainboard script, [None]. *)
Definition reads_as_text (sc : script) (v : option pyval) : Prop :=
  match v with
  | None | Some (PStr _) => True
  | Some PNone => sc = Mainboard
  | Some _ => False
  end.

(** A field that reads as the empty string in script [sc]: absent, empty or
    whitespace only, or, in the Mainboard script, [None]. *)
Definition reads_as_empty (sc : script) (v : option pyval) : Prop :=
  match v with
  | None => True
  | Some (PStr s) => strip s = []
  | Some PNone => sc = Mainboard
  | Some _ => False
  end.

(** ** Rows of the codes file *)

(** The text in a column of a row; empty when the column is absent or was
    not filled. *)
Definition column (r : csv_row) (name : pystr) : pystr :=
  match lookup_last name r with
  | Some (Some s) => s
  | _ => []
  end.

Definition nonempty (s : pystr) : bool :=
  match s with [] => false | _ :: _ => true end.

(** The first non-empty text among the three recognised columns. *)
Definition first_nonempty (r : csv_row) : pystr :=
  if nonempty (column r (lit "code")) then column r (lit "code")
  else if nonempty (column r zhengquan_daima) then column r zhengquan_daima
  else column r (lit "stock_code").

(** The codes of a list of rows: per row the first non-empty text, trimmed,
    when something is left. *)
Definition codes_of_rows (rows : list csv_row) : list pystr :=
  List.filter nonempty ((λ r, strip (first_nonempty r)) <$> rows).

(** ** Readings of the spec that the code is compared with *)

(** Following the spec's words ("already carries a scheme"): a URL carries a
    scheme when it begins with a letter, continues with letters, digits,
    [+], [-] or [.], and then has a colon (RFC 3986). *)
Definition is_alpha (c : N) : bool :=
  ((0x41 <=? c) && (c <=? 0x5A) || (0x61 <=? c) && (c <=? 0x7A))%N.

Definition is_scheme_char (c : N) : bool :=
  (is_alpha c || (0x30 <=? c) && (c <=? 0x39)
   || (c =? 0x2B) || (c =? 0x2D) || (c =? 0x2E))%N.

Fixpoint scheme_tail (s : pystr) : bool :=
  match s with
  | [] => false
  | c :: s' => if (c =? 0x3A)%N then true else is_scheme_char c && scheme_tail s'
  end.

Definition carries_scheme (s : pystr) : bool :=
  match s with
  | c :: s' => is_alpha c && scheme_tail s'
  | [] => false
  end.

(** Following the spec's words: per row the first non-empty value among the
    recognised columns, as found, rows without one skipped. *)
Definition codes_as_found (rows : list csv_row) : list pystr :=
  List.filter nonempty (first_nonempty <$> rows).

(** ** Worlds and records used in the examples *)

(** A world that times out, answers 503 and then answers 200 with no
    records; and one that fails three times. *)
Definition flaky_world : list (exn + response) :=
  [ inl (RequestException (lit "timed out"));
    inr {| status_code := 503; json := None |};
    Scripted.ok [] ].

Definition down_world : list (exn + response) :=
  [ inl (RequestException (lit "timed out"));
    inr {| status_code := 503; json := None |};
    inr {| status_code := 500; json := None |} ].

(** A world in which the endpoint has no record for any code. *)
Definition empty_world : list (exn + response) :=
  [ Scripted.ok []; Scripted.ok []; Scripted.ok [];
    Scripted.ok []; Scripted.ok []; Scripted.ok [] ].

(** A record of the endpoint whose "TITLE" is [null]. *)
Definition null_title_record : pyval :=
  PDict [ (lit "TITLE", PNone); (lit "SSEDATE", PStr (lit "2022-03-30"));
          (lit "URL", PStr (lit "/a/r.pdf")) ].

(** A record of the endpoint whose "URL" is [null]. *)
Definition null_url_record : pyval :=
  PDict [ (lit "TITLE", PStr (lit "Report")); (lit "SSEDATE", PStr (lit "2022-03-30"));
          (lit "URL", PNone) ].

(** A codes file: a plain row, a duplicate of it, a padded code, a row that
    uses the second column name, a blank row, and a row too short to fill
    its column. *)
Definition sample_rows : list csv_row :=
  [ [(lit "code", Some (lit "600000"))];
    [(lit "code", Some (lit "600000"))];
    [(lit "code", Some (lit " 600004 "))];
    [(lit "code", Some (lit "")); (zhengquan_daima, Some (lit "600006"))];
    [(lit "code", Some (lit "  "))];
    [(lit "code", None)] ].

(** ** Vocabulary of the further properties *)

(** A string without whitespace at either end: trimming leaves it as it is. *)
Definition trimmed (s : pystr) : Prop := strip s = s.

(** The number of requests a trace issues. *)
Fixpoint requests (t : list event) : nat :=
  match t with
  | [] => O
  | EvRequest _ :: t' => S (requests t')
  | _ :: t' => requests t'
  end.

(** From every world, [m] issues at most [n] requests, however it ends. *)
Definition at_most {W A} (m : M W A) (n : nat) : Prop :=
  ∀ w, (requests (m w).2 ≤ n)%nat.

(** The status codes on which [raise_for_status] raises. *)
Definition error_status (status : Z) : bool :=
  (400 <=? status) && (status <? 600).

(** Every URL in the set belongs to a row. *)
Definition seen_have_rows (st : list row * gset pystr) : Prop :=
  ∀ u, u ∈ st.2 → u ∈ url <$> st.1.

(** A row as the scripts build it from the codes [codes]: the code is one of
    them, title and date are trimmed, and the URL is the resolution of a
    trimmed, non-empty fragment. *)
Definition row_from (codes : list pystr) (r : row) : Prop :=
  code r ∈ codes ∧ trimmed (title r) ∧ trimmed (date r) ∧
  ∃ relative_url : pystr,
    relative_url ≠ [] ∧ trimmed relative_url ∧ url r = pdf_url relative_url.

(** What one step leaves behind, from a state [st]. *)
Definition grown (st st' : list row * gset pystr) : Prop :=
  seen_have_rows st' ∧ st.1 `prefix_of` st'.1 ∧ st.2 ⊆ st'.2.

(** The URL of a record is among the rows. *)
Definition url_in_rows (item : pyval) (st : list row * gset pystr) : Prop :=
  ∀ d s, item = PDict d → lookup_last (lit "URL") d = Some (PStr s) →
         strip s ≠ [] → pdf_url (strip s) ∈ url <$> st.1.

(** * Properties *)

(** ** Reasoning about computations *)

Section Hoare.
Context {W : Type}.
Implicit Types P : event → Prop.

Lemma bind_run {A B} (m : M W A) (f : A → M W B) w :
  (m ≫= f) w =
  match m w with
  | (Ret a, w1, t1) => let '(r, w2, t2) := f a w1 in (r, w2, t1 ++ t2)
  | (Raise e, w1, t1) => (Raise e, w1, t1)
  end.
Proof. reflexivity. Qed.

Lemma hoare_ret {A} (a : A) P (Q : A → Prop) : Q a → hoare (W:=W) (mret a) P Q.
Proof. intros Ha w. split; [constructor | exact Ha]. Qed.

Lemma hoare_raise {A} e P (Q : A → Prop) : hoare (W:=W) (raise e) P Q.
Proof. intros w. split; [constructor | exact I]. Qed.

Lemma hoare_emit ev P (Q : unit → Prop) : P ev → Q tt → hoare (W:=W) (emit ev) P Q.
Proof. intros Hev Hq w. split; [repeat constructor; exact Hev | exact Hq]. Qed.

Lemma hoare_bind {A B} (m : M W A) (f : A → M W B) P (Q1 : A → Prop) (Q2 : B → Prop) :
  hoare m P Q1 → (∀ a, Q1 a → hoare (f a) P Q2) → hoare (m ≫= f) P Q2.
Proof.
  intros Hm Hf w. rewrite bind_run.
  destruct (Hm w) as [Ht Hq]. destruct (m w) as [[[a|e] w1] t1]; simpl in *.
  - destruct (Hf a Hq w1) as [Ht2 Hq2].
    destruct (f a w1) as [[r w2] t2]; simpl in *.
    split; [apply Forall_app; split; assumption | exact Hq2].
  - split; [assumption | exact I].
Qed.

Lemma hoare_weaken {A} (m : M W A) P P' (Q Q' : A → Prop) :
  hoare m P Q → (∀ ev, P ev → P' ev) → (∀ a, Q a → Q' a) → hoare m P' Q'.
Proof.
  intros Hm HP HQ w. destruct (Hm w) as [Ht Hq]. split.
  - eapply Forall_impl; eassumption.
  - destruct ((m w).1.1); [apply HQ; exact Hq | exact I].
Qed.

Lemma hoare_try {A} (m : M W A) P (Q : A → Prop) :
  hoare m P Q →
  hoare (try_ m) P (λ r, match r with inr a => Q a | inl _ => True end).
Proof.
  intros Hm w. unfold try_. destruct (Hm w) as [Ht Hq].
  destruct (m w) as [[[a|e] w1] t1]; simpl in *; split; auto.
Qed.

Lemma hoare_for {A S} (l : list A) (body : A → S → M W S) P (Inv : S → Prop) :
  (∀ x s, Inv s → hoare (body x s) P Inv) →
  ∀ s, Inv s → hoare (for_ l body s) P Inv.
Proof.
  intros Hbody. induction l as [|x l IH]; intros s Hs; simpl.
  - apply hoare_ret. exact Hs.
  - eapply hoare_bind; [apply Hbody; exact Hs | exact IH].
Qed.

End Hoare.

Lemma not_a_write_tables R ev : not_a_write ev → tables R ev.
Proof. destruct ev; simpl; tauto. Qed.

Lemma tables_impl (R R' : list pystr → list row → Prop) ev :
  (∀ header rows, R header rows → R' header rows) → tables R ev → tables R' ev.
Proof. intros HR. destruct ev; simpl; auto. Qed.

Lemma pdf_url_startswith_http (relative_url : pystr) :
  startswith (pdf_url relative_url) (lit "http") = true.
Proof.
  unfold pdf_url.
  destruct (startswith relative_url (lit "http")) eqn:E; simpl; [exact E | reflexivity].
Qed.

Section Pipeline.
Context {W : Type}.
Variable session_request : request → W → (exn + response) * W.
Variable read_csv : pystr → W → exn + list csv_row.

Lemma py_get_silent obj key fallback P :
  hoare (W:=W) (py_get obj key fallback) P (λ _, True).
Proof. destruct obj; try apply hoare_raise. apply hoare_ret. exact I. Qed.

Lemma py_strip_silent obj P : hoare (W:=W) (py_strip obj) P (λ _, True).
Proof. destruct obj; try apply hoare_raise. apply hoare_ret. exact I. Qed.

Lemma read_field_silent sc item key P :
  hoare (W:=W) (read_field sc item key) P (λ _, True).
Proof.
  destruct sc; simpl; (eapply hoare_bind; [apply py_get_silent|]);
    intros v _; apply py_strip_silent.
Qed.

Lemma handle_item_inv sc code item st :
  year_inv st → hoare (W:=W) (handle_item sc code item st) not_a_write year_inv.
Proof.
  intros Hst. destruct st as [summary_rows seen_urls]. unfold handle_item.
  eapply hoare_bind; [apply read_field_silent|]. intros title _.
  eapply hoare_bind; [apply read_field_silent|]. intros date _.
  eapply hoare_bind; [apply read_field_silent|]. intros relative_url _.
  destruct relative_url as [|c relative_url]; [apply hoare_ret; exact Hst|].
  set (rel := c :: relative_url). cbn [truthy length Nat.eqb negb].
  destruct (decide (pdf_url rel ∈ seen_urls)) as [Hin|Hnin].
  - eapply hoare_bind; [apply (hoare_emit _ _ (λ _, True)); exact I|].
    intros _ _. apply hoare_ret. exact Hst.
  - eapply hoare_bind; [apply (hoare_emit _ _ (λ _, True)); exact I|]. intros _ _.
    eapply hoare_bind; [apply (hoare_emit _ _ (λ _, True)); exact I|]. intros _ _.
    apply hoare_ret. destruct Hst as (Hnd & Hsub & Hhttp).
    unfold year_inv. cbn [fst snd] in *. split; [|split].
    + rewrite fmap_app. cbn [fmap list_fmap url]. apply NoDup_app. split; [exact Hnd|]. split.
      * intros u Hu Hu'. apply list_elem_of_singleton in Hu'. subst u.
        apply Hnin, Hsub, Hu.
      * apply NoDup_singleton.
    + intros u. rewrite fmap_app. cbn [fmap list_fmap url].
      rewrite elem_of_app, list_elem_of_singleton.
      intros [Hu | ->]; [apply elem_of_union_r, Hsub, Hu | apply elem_of_union_l, elem_of_singleton; reflexivity].
    + apply Forall_app. split; [exact Hhttp|]. constructor; [|constructor].
      exists rel. split; [discriminate | reflexivity].
Qed.

Lemma print_silent m (Q : unit → Prop) :
  Q tt → hoare (W:=W) (print m) not_a_write Q.
Proof. intros HQ. apply hoare_emit; [exact I | exact HQ]. Qed.

Lemma sleep_silent secs (Q : unit → Prop) :
  Q tt → hoare (W:=W) (sleep secs) not_a_write Q.
Proof. intros HQ. apply hoare_emit; [exact I | exact HQ]. Qed.

Lemma attempt_request_events req P :
  P (EvRequest req) →
  hoare (attempt_request session_request req) P (λ _, True).
Proof.
  intros Hreq. unfold attempt_request.
  eapply hoare_bind; [apply (hoare_emit _ _ (λ _, True)); [exact Hreq | exact I]|].
  intros _ _.
  eapply hoare_bind with (Q1 := λ _, True).
  - intros w. destruct (session_request req w) as [[e|resp] w']; simpl; auto.
  - intros resp _. eapply hoare_bind with (Q1 := λ _, True).
    + unfold raise_for_status.
      destruct (_ && _); [apply hoare_raise | apply hoare_ret; exact I].
    + intros _ _. apply hoare_ret. exact I.
Qed.

Lemma retry_loop_events attempts max_retries req P :
  P (EvRequest req) → quiet P →
  hoare (retry_loop session_request attempts max_retries req) P (λ _, True).
Proof.
  intros Hreq [Hprint Hsleep]. induction attempts as [|attempt attempts IH]; simpl.
  - apply hoare_ret. exact I.
  - eapply hoare_bind; [apply hoare_try, attempt_request_events, Hreq|].
    intros [e|resp] _; [|apply hoare_ret; exact I].
    eapply hoare_bind; [apply (hoare_emit _ _ (λ _, True)); [apply Hprint | exact I]|].
    intros _ _. destruct (attempt =? max_retries); [apply hoare_raise|].
    eapply hoare_bind; [apply (hoare_emit _ _ (λ _, True)); [apply Hsleep | exact I]|].
    intros _ _. exact IH.
Qed.

Lemma fetch_reports_for_year_events code year P :
  P (EvRequest {| req_method := lit "GET"; req_url := URL_QUERY_COMPANY;
                  req_timeout := 15; req_headers := HEADERS;
                  req_params := fetch_params code year |}) →
  quiet P →
  hoare (fetch_reports_for_year session_request code year) P (λ _, True).
Proof.
  intros Hreq Hquiet. unfold fetch_reports_for_year, request_with_retry.
  eapply hoare_bind; [apply retry_loop_events; [exact Hreq | exact Hquiet]|].
  intros resp _.
  eapply hoare_bind with (Q1 := λ _, True).
  { destruct resp as [r|]; simpl; [|apply hoare_raise].
    destruct (json r); [apply hoare_ret; exact I | apply hoare_raise]. }
  intros data _. eapply hoare_bind; [apply py_get_silent|]. intros results _.
  eapply hoare_bind with (Q1 := λ _, True).
  { destruct results; simpl; try apply hoare_raise; apply hoare_ret; exact I. }
  intros n _.
  eapply hoare_bind; [apply (hoare_emit _ _ (λ _, True)); [apply Hquiet | exact I]|].
  intros _ _. apply hoare_ret. exact I.
Qed.

Lemma fetch_reports_for_year_no_write code year :
  hoare (fetch_reports_for_year session_request code year) not_a_write (λ _, True).
Proof. apply fetch_reports_for_year_events; [exact I | split; intros; exact I]. Qed.

Lemma handle_code_inv sc year total idx_code st :
  year_inv st →
  hoare (handle_code session_request sc year total idx_code st) not_a_write year_inv.
Proof.
  intros Hst. destruct idx_code as [idx code]. unfold handle_code.
  eapply hoare_bind; [apply print_silent with (Q := λ _, True); exact I|]. intros _ _.
  eapply hoare_bind; [apply hoare_try, fetch_reports_for_year_no_write|].
  intros [e|reports] _.
  - eapply hoare_bind; [apply print_silent with (Q := λ _, True); exact I|].
    intros _ _. apply hoare_ret. exact Hst.
  - eapply hoare_bind with (Q1 := λ _, True).
    { destruct reports; simpl; try apply hoare_raise; apply hoare_ret; exact I. }
    intros items _. apply hoare_for; [|exact Hst].
    intros item s Hs. apply handle_item_inv. exact Hs.
Qed.

Lemma year_inv_init : year_inv ([], ∅).
Proof.
  split; [|split]; simpl.
  - constructor.
  - intros u Hu. inversion Hu.
  - constructor.
Qed.

Lemma write_summary_tables sc year summary_rows :
  NoDup (url <$> summary_rows) → Forall resolved summary_rows →
  hoare (W:=W) (write_summary sc year summary_rows) (tables table_ok) (λ _, True).
Proof.
  intros Hnd Hhttp. destruct summary_rows as [|r rows]; simpl.
  - apply hoare_emit; exact I.
  - eapply hoare_bind with (Q1 := λ _, True).
    + apply hoare_emit; [|exact I]. simpl.
      split; [reflexivity | split; [discriminate | split; assumption]].
    + intros _ _. apply hoare_emit; exact I.
Qed.

Lemma handle_year_tables sc codes year :
  hoare (handle_year session_request sc codes year) (tables table_ok) (λ _, True).
Proof.
  unfold handle_year.
  eapply hoare_bind; [apply (hoare_emit _ _ (λ _, True)); exact I|]. intros _ _.
  eapply hoare_bind.
  - eapply hoare_weaken with (Q' := year_inv).
    + apply hoare_for; [|apply year_inv_init].
      intros x s Hs. apply handle_code_inv. exact Hs.
    + intros ev. apply not_a_write_tables.
    + auto.
  - intros st (Hnd & _ & Hhttp). apply write_summary_tables; assumption.
Qed.

Lemma run_years_tables sc codes years :
  hoare (run_years session_request sc codes years) (tables table_ok) (λ _, True).
Proof.
  unfold run_years. apply hoare_for; [|exact I].
  intros year [] _. apply handle_year_tables.
Qed.

Lemma load_codes_from_csv_no_write path :
  hoare (load_codes_from_csv read_csv path) not_a_write (λ _, True).
Proof.
  unfold load_codes_from_csv.
  eapply hoare_bind with (Q1 := λ _, True).
  { intros w. unfold open_csv. destruct (read_csv path w); simpl; auto. }
  intros rows _. eapply hoare_bind with (Q1 := λ _, True).
  { apply hoare_for; [|exact I]. intros r codes _. unfold load_row.
    eapply hoare_bind; [apply py_strip_silent|]. intros c _.
    destruct (truthy (PStr c)); apply hoare_ret; exact I. }
  intros codes _. eapply hoare_bind; [apply print_silent with (Q := λ _, True); exact I|].
  intros _ _. apply hoare_ret. exact I.
Qed.

Lemma main_tables sc :
  hoare (main session_request read_csv sc) (tables table_ok) (λ _, True).
Proof.
  unfold main. eapply hoare_bind with (Q1 := λ _, True).
  - destruct sc; [apply hoare_ret; exact I|].
    eapply hoare_weaken; [apply load_codes_from_csv_no_write | | auto].
    intros ev. apply not_a_write_tables.
  - intros codes _. eapply hoare_bind; [apply run_years_tables|].
    intros _ _. apply hoare_emit; exact I.
Qed.

End Pipeline.

(** ** The claims *)

Lemma resolved_http r : resolved r → startswith (url r) (lit "http") = true.
Proof. intros (rel & _ & ->). apply pdf_url_startswith_http. Qed.

(** The end-to-end scenario: for 2022, code 600000 has a record with a
    relative URL and one with an empty URL, and code 600519 has a record that
    resolves to the first URL.  One row is written. *)
Example end_to_end_scenario :
  written
    (run_years Scripted.session_request Links [lit "600000"; lit "600519"] [2022]
       [ Scripted.ok [ Scripted.record "Annual report" "2022-03-30" "/a/2021.pdf";
                       Scripted.record "Summary" "2022-03-30" "" ];
         Scripted.ok [ Scripted.record "Annual report (copy)" "2022-04-01"
                         "https://static.sse.com.cn/a/2021.pdf" ] ]).2
  = [ (lit "summary_links_2022.csv",
       [ {| code := lit "600000"; title := lit "Annual report";
            date := lit "2022-03-30";
            url := lit "https://static.sse.com.cn/a/2021.pdf" |} ]) ].
Proof. vm_compute. reflexivity. Qed.

(** The set starts empty in each year: a URL written for 2022 is written
    again for 2023. *)
Example seen_urls_reset_each_year :
  written
    (run_years Scripted.session_request Mainboard [lit "600000"] [2022; 2023]
       [ Scripted.ok [ Scripted.record "Report" "2022-03-30" "/a/r.pdf" ];
         Scripted.ok [ Scripted.record "Report" "2023-03-30" "/a/r.pdf" ] ]).2
  = [ (lit "summary_mainboard_links_2022.csv",
       [ {| code := lit "600000"; title := lit "Report"; date := lit "2022-03-30";
            url := lit "https://static.sse.com.cn/a/r.pdf" |} ]);
      (lit "summary_mainboard_links_2023.csv",
       [ {| code := lit "600000"; title := lit "Report"; date := lit "2023-03-30";
            url := lit "https://static.sse.com.cn/a/r.pdf" |} ]) ].
Proof. vm_compute. reflexivity. Qed.

(** Two codes, two records each, one URL in common: the common URL is
    written once, under the code that came first. *)
Example codes_share_one_set :
  written
    (run_years Scripted.session_request Mainboard [lit "600000"; lit "600004"] [2022]
       [ Scripted.ok [ Scripted.record "A" "2022-03-30" "/a.pdf";
                       Scripted.record "B" "2022-03-30" "/b.pdf" ];
         Scripted.ok [ Scripted.record "B again" "2022-03-31" "/b.pdf";
                       Scripted.record "C" "2022-03-31" "/c.pdf" ] ]).2
  = [ (lit "summary_mainboard_links_2022.csv",
       [ {| code := lit "600000"; title := lit "A"; date := lit "2022-03-30";
            url := lit "https://static.sse.com.cn/a.pdf" |};
         {| code := lit "600000"; title := lit "B"; date := lit "2022-03-30";
            url := lit "https://static.sse.com.cn/b.pdf" |};
         {| code := lit "600004"; title := lit "C"; date := lit "2022-03-31";
            url := lit "https://static.sse.com.cn/c.pdf" |} ]) ].
Proof. vm_compute. reflexivity. Qed.

(** *** URL resolution *)

(** C2, as stated, fails: "httpdocs/a.pdf" is non-empty, trimmed and carries
    no scheme, and it is returned as it is instead of being prefixed with the
    base; "ftp://host/a.pdf" carries a scheme and is prefixed. *)
Lemma pdf_url_scheme_counterexample :
  (let u := lit "httpdocs/a.pdf" in
   u ≠ [] ∧ strip u = u ∧ carries_scheme u = false ∧
   pdf_url u ≠ URL_PDF_BASE ++ u) ∧
  (let u := lit "ftp://host/a.pdf" in
   u ≠ [] ∧ strip u = u ∧ carries_scheme u = true ∧ pdf_url u ≠ u).
Proof. vm_compute. repeat split; discriminate. Qed.

(** C2, amended: a raw URL that does not begin with the characters "http" is
    rewritten to the base followed by the fragment, one that begins with
    "http" is returned unchanged, and resolving a resolved URL changes
    nothing. *)
Theorem pdf_url_by_prefix (relative_url : pystr) :
  (startswith relative_url (lit "http") = false →
     pdf_url relative_url = URL_PDF_BASE ++ relative_url) ∧
  (startswith relative_url (lit "http") = true →
     pdf_url relative_url = relative_url) ∧
  pdf_url (pdf_url relative_url) = pdf_url relative_url.
Proof.
  assert (Hpass : ∀ u, startswith u (lit "http") = true → pdf_url u = u).
  { intros u Hu. unfold pdf_url. rewrite Hu. reflexivity. }
  split; [|split].
  - intros Hu. unfold pdf_url. rewrite Hu. reflexivity.
  - apply Hpass.
  - apply Hpass, pdf_url_startswith_http.
Qed.

Lemma pdf_url_by_prefix_witness :
  pdf_url (lit "/disclosure/a.pdf") = URL_PDF_BASE ++ lit "/disclosure/a.pdf" ∧
  pdf_url (lit "http://www.sse.com.cn/a.pdf") = lit "http://www.sse.com.cn/a.pdf".
Proof.
  split.
  - apply (proj1 (pdf_url_by_prefix (lit "/disclosure/a.pdf"))). reflexivity.
  - apply (proj1 (proj2 (pdf_url_by_prefix (lit "http://www.sse.com.cn/a.pdf")))).
    reflexivity.
Defined.

(** C10. The test is on the four characters "http": every raw URL that
    begins with them is returned unchanged, "httpdocs/a.pdf" included, and
    every [url] of every table written, by the year loop and by [main] of
    both scripts, begins with "http". *)
Theorem pdf_url_literal_prefix :
  (∀ relative_url : pystr,
     startswith relative_url (lit "http") = true →
     pdf_url relative_url = relative_url) ∧
  pdf_url (lit "httpdocs/a.pdf") = lit "httpdocs/a.pdf" ∧
  (∀ (W : Type) (session_request : request → W → (exn + response) * W)
     (read_csv : pystr → W → exn + list csv_row) (sc : script),
     (∀ codes years w,
        Forall (tables (λ _ rows,
                  Forall (λ r, startswith (url r) (lit "http") = true) rows))
               (run_years session_request sc codes years w).2) ∧
     (∀ w,
        Forall (tables (λ _ rows,
                  Forall (λ r, startswith (url r) (lit "http") = true) rows))
               (main session_request read_csv sc w).2)).
Proof.
  assert (Hrows : ∀ header rows, table_ok header rows →
            Forall (λ r, startswith (url r) (lit "http") = true) rows).
  { intros header rows (_ & _ & _ & Hres). eapply Forall_impl; [exact Hres|].
    intros r. apply resolved_http. }
  split; [|split].
  - intros u Hu. unfold pdf_url. rewrite Hu. reflexivity.
  - reflexivity.
  - intros W session_request read_csv sc. split.
    + intros codes years w.
      eapply Forall_impl; [apply (run_years_tables session_request sc codes years w)|].
      intros ev. apply tables_impl, Hrows.
    + intros w.
      eapply Forall_impl; [apply (main_tables session_request read_csv sc w)|].
      intros ev. apply tables_impl, Hrows.
Qed.

Lemma pdf_url_literal_prefix_witness :
  pdf_url (lit "httpdocs/a.pdf") = lit "httpdocs/a.pdf".
Proof.
  apply (proj1 pdf_url_literal_prefix (lit "httpdocs/a.pdf")). reflexivity.
Defined.

(** *** Retries *)

Section Retry.
Context {W : Type}.
Variable session_request : request → W → (exn + response) * W.

Lemma attempt_request_trace req w :
  (attempt_request session_request req w).2 = [EvRequest req].
Proof.
  unfold attempt_request. rewrite bind_run. cbn [emit].
  rewrite bind_run. destruct (session_request req w) as [[e|resp] w1]; [reflexivity|].
  rewrite bind_run. unfold raise_for_status.
  destruct (_ && _); reflexivity.
Qed.

Lemma range_cons a b : a < b → range a b = a :: range (a + 1) b.
Proof.
  intros Hab. unfold range.
  replace (Z.to_nat (b - a)) with (S (Z.to_nat (b - (a + 1)))) by lia.
  cbn [seq map]. f_equal; [lia|].
  rewrite <- seq_shift, map_map. apply map_ext. intros i. lia.
Qed.

Lemma range_nil a b : b ≤ a → range a b = [].
Proof. intros Hab. unfold range. replace (Z.to_nat (b - a)) with O by lia. reflexivity. Qed.

Lemma retry_loop_fail_step attempt attempts max_retries req w e w1 t1 :
  attempt_request session_request req w = (Raise e, w1, t1) →
  retry_loop session_request (attempt :: attempts) max_retries req w =
  if attempt =? max_retries
  then (Raise e, w1, [EvRequest req; EvPrint (WarnRequestFailed attempt max_retries e)])
  else let '(r, w2, t2) := retry_loop session_request attempts max_retries req w1 in
       (r, w2, [ EvRequest req; EvPrint (WarnRequestFailed attempt max_retries e);
                 EvSleep (PInt (2 * attempt)) ] ++ t2).
Proof.
  intros Hatt. pose proof (attempt_request_trace req w) as Ht.
  rewrite Hatt in Ht. simpl in Ht. subst t1.
  cbn [retry_loop]. rewrite bind_run. unfold try_ at 1. rewrite Hatt.
  rewrite bind_run. cbn [print emit].
  destruct (attempt =? max_retries); [reflexivity|].
  rewrite bind_run. cbn [sleep emit].
  destruct (retry_loop session_request attempts max_retries req w1) as [[r w2] t2].
  reflexivity.
Qed.

Lemma retry_loop_success_step attempt attempts max_retries req w resp w1 t1 :
  attempt_request session_request req w = (Ret resp, w1, t1) →
  retry_loop session_request (attempt :: attempts) max_retries req w =
  (Ret (Some resp), w1, [EvRequest req]).
Proof.
  intros Hatt. pose proof (attempt_request_trace req w) as Ht.
  rewrite Hatt in Ht. simpl in Ht. subst t1.
  cbn [retry_loop]. rewrite bind_run. unfold try_ at 1. rewrite Hatt. reflexivity.
Qed.

Lemma retry_loop_first_success req max_retries n :
  ∀ attempt w es w1 resp w2 t2,
    attempt + Z.of_nat n ≤ max_retries →
    failed_attempts session_request req n w = Some (es, w1) →
    attempt_request session_request req w1 = (Ret resp, w2, t2) →
    retry_loop session_request (range attempt (max_retries + 1)) max_retries req w =
    (Ret (Some resp), w2, retry_events req max_retries attempt es ++ [EvRequest req]).
Proof.
  induction n as [|n IH]; intros attempt w es w1 resp w2 t2 Hle Hfail Hok.
  - simpl in Hfail. injection Hfail as <- <-.
    rewrite range_cons by lia. erewrite retry_loop_success_step by exact Hok.
    reflexivity.
  - simpl in Hfail.
    destruct (attempt_request session_request req w) as [[[resp0|e] w0] t0] eqn:Hatt;
      [discriminate|].
    destruct (failed_attempts session_request req n w0) as [[es' w']|] eqn:Hrest; [|discriminate].
    injection Hfail as <- <-.
    rewrite range_cons by lia. erewrite retry_loop_fail_step by exact Hatt.
    replace (attempt =? max_retries) with false by lia.
    rewrite (IH (attempt + 1) w0 es' w' resp w2 t2) by (lia || assumption).
    reflexivity.
Qed.

Lemma failed_attempts_length req n :
  ∀ w es w1, failed_attempts session_request req n w = Some (es, w1) → length es = n.
Proof.
  induction n as [|n IH]; intros w es w1 Hfail; simpl in Hfail.
  - injection Hfail as <- <-. reflexivity.
  - destruct (attempt_request session_request req w) as [[[?|?] w0] ?]; [discriminate|].
    destruct (failed_attempts session_request req n w0) as [[es' w']|] eqn:E; [|discriminate].
    injection Hfail as <- <-. simpl. f_equal. eapply IH. exact E.
Qed.

Lemma retry_loop_all_fail req max_retries n :
  ∀ attempt w es e w1,
    attempt + Z.of_nat n = max_retries →
    failed_attempts session_request req (S n) w = Some (es ++ [e], w1) →
    retry_loop session_request (range attempt (max_retries + 1)) max_retries req w =
    (Raise e, w1,
     retry_events req max_retries attempt es
     ++ [EvRequest req; EvPrint (WarnRequestFailed max_retries max_retries e)]).
Proof.
  induction n as [|n IH]; intros attempt w es e w1 Hle Hfail.
  - cbn [failed_attempts] in Hfail.
    destruct (attempt_request session_request req w) as [[[resp0|e0] w0] t0] eqn:Hatt;
      [discriminate|].
    injection Hfail as Hes <-.
    change (Z.of_nat 0) with 0 in Hle. rewrite Z.add_0_r in Hle. subst max_retries.
    destruct es as [|e1 [|e2 es]]; simplify_eq/=.
    rewrite range_cons by lia. erewrite retry_loop_fail_step by exact Hatt.
    rewrite Z.eqb_refl. reflexivity.
  - remember (S n) as m. cbn [failed_attempts] in Hfail.
    destruct (attempt_request session_request req w) as [[[resp0|e0] w0] t0] eqn:Hatt;
      [discriminate|].
    destruct (failed_attempts session_request req m w0) as [[es' w']|] eqn:Hrest; [|discriminate].
    injection Hfail as Hes <-.
    pose proof (failed_attempts_length _ _ _ _ _ Hrest) as Hlen.
    destruct es as [|e1 es].
    { simpl in Hes. injection Hes as -> Hnil. subst es' m. discriminate. }
    simpl in Hes. injection Hes as -> ->. subst m.
    rewrite range_cons by lia. erewrite retry_loop_fail_step by exact Hatt.
    replace (attempt =? max_retries) with false by lia.
    rewrite (IH (attempt + 1) w0 es e w') by (lia || assumption).
    reflexivity.
Qed.

Lemma elem_of_range a b x : x ∈ range a b ↔ a ≤ x < b.
Proof.
  unfold range. rewrite list_elem_of_In, in_map_iff. split.
  - intros (i & <- & Hi). apply in_seq in Hi. lia.
  - intros Hx. exists (Z.to_nat (x - a)). split; [lia|]. apply in_seq. lia.
Qed.

Lemma doubled_range_increasing a b :
  StronglySorted Z.lt ((λ i, 2 * i) <$> range a b).
Proof.
  remember (Z.to_nat (b - a)) as n eqn:Hn. revert a Hn.
  induction n as [|n IH]; intros a Hn.
  - rewrite range_nil by lia. constructor.
  - rewrite range_cons by lia. cbn [fmap list_fmap]. constructor.
    + apply IH. lia.
    + apply Forall_fmap, Forall_forall. intros x Hx. apply elem_of_range in Hx.
      simpl. lia.
Qed.

Lemma sleeps_app t1 t2 : sleeps (t1 ++ t2) = sleeps t1 ++ sleeps t2.
Proof.
  induction t1 as [|ev t1 IH]; [reflexivity|].
  destruct ev; simpl; rewrite IH; reflexivity.
Qed.

Lemma sleeps_retry_events req max_retries es :
  ∀ attempt,
    sleeps (retry_events req max_retries attempt es) =
    (λ i, PInt (2 * i)) <$> range attempt (attempt + Z.of_nat (length es)).
Proof.
  induction es as [|e es IH]; intros attempt.
  - rewrite range_nil by (simpl; lia). reflexivity.
  - rewrite range_cons by (simpl; lia). cbn [retry_events sleeps app fmap list_fmap].
    rewrite IH. do 3 f_equal. simpl length. lia.
Qed.

(** With [max_retries] below 1 the loop runs no attempt and the function
    returns [None]. *)
Lemma request_with_retry_no_attempts method url max_retries headers params (w : W) :
  max_retries ≤ 0 →
  request_with_retry session_request method url max_retries headers params w
  = (Ret None, w, []).
Proof.
  intros Hmax. unfold request_with_retry. rewrite range_nil by lia. reflexivity.
Qed.

(** An attempt succeeds exactly when the session answers with a response
    whose status is not in the 400s or 500s. *)
Lemma attempt_request_outcome req (w : W) :
  attempt_request session_request req w =
  match session_request req w with
  | (inl e, w1) => (Raise e, w1, [EvRequest req])
  | (inr resp, w1) =>
      if (400 <=? status_code resp) && (status_code resp <? 600)
      then (Raise (HTTPError (status_code resp)), w1, [EvRequest req])
      else (Ret resp, w1, [EvRequest req])
  end.
Proof.
  unfold attempt_request. rewrite bind_run. cbn [emit].
  rewrite bind_run. destruct (session_request req w) as [[e|resp] w1]; [reflexivity|].
  rewrite bind_run. unfold raise_for_status.
  destruct (_ && _); reflexivity.
Qed.

(** C4. With [req] the request that [request_with_retry] issues: when the
    first [k - 1] attempts fail and attempt [k] (1 ≤ k ≤ max_retries)
    succeeds, the function returns that attempt's response, and the trace is
    request, warning and a sleep of [2 * i] seconds for each failed attempt
    [i], then the last request, so the sleeps are 2, 4, ..., 2(k - 1),
    strictly increasing; when all [max_retries] attempts fail, the exception
    of the last attempt is raised, and every failed attempt but the last is
    followed by its sleep. *)
Theorem request_with_retry_outcomes (method url : pystr) (max_retries : Z)
    (headers params : list (pystr * pystr)) (w : W) :
  let req := {| req_method := method; req_url := url; req_timeout := 15;
                req_headers := headers; req_params := params |} in
  (∀ k es w1 resp w2 t2,
     1 ≤ k ≤ max_retries →
     failed_attempts session_request req (Z.to_nat (k - 1)) w = Some (es, w1) →
     attempt_request session_request req w1 = (Ret resp, w2, t2) →
     let t := retry_events req max_retries 1 es ++ [EvRequest req] in
     request_with_retry session_request method url max_retries headers params w
       = (Ret (Some resp), w2, t) ∧
     sleeps t = (λ i, PInt (2 * i)) <$> range 1 k ∧
     StronglySorted Z.lt ((λ i, 2 * i) <$> range 1 k)) ∧
  (∀ es e w1,
     1 ≤ max_retries →
     failed_attempts session_request req (Z.to_nat max_retries) w = Some (es ++ [e], w1) →
     let t := retry_events req max_retries 1 es
              ++ [ EvRequest req;
                   EvPrint (WarnRequestFailed max_retries max_retries e) ] in
     request_with_retry session_request method url max_retries headers params w
       = (Raise e, w1, t) ∧
     sleeps t = (λ i, PInt (2 * i)) <$> range 1 max_retries).
Proof.
  intros req. split.
  - intros k es w1 resp w2 t2 Hk Hfail Hok t.
    pose proof (failed_attempts_length _ _ _ _ _ Hfail) as Hlen.
    split; [|split].
    + unfold request_with_retry. fold req.
      eapply retry_loop_first_success; [|exact Hfail|exact Hok]. lia.
    + unfold t. rewrite sleeps_app, sleeps_retry_events. simpl sleeps.
      rewrite app_nil_r. do 2 f_equal. lia.
    + apply doubled_range_increasing.
  - intros es e w1 Hmax Hfail t.
    pose proof (failed_attempts_length _ _ _ _ _ Hfail) as Hlen.
    rewrite length_app in Hlen. simpl in Hlen.
    split.
    + unfold request_with_retry. fold req.
      apply (retry_loop_all_fail req max_retries (Z.to_nat (max_retries - 1))); [lia|].
      replace (S (Z.to_nat (max_retries - 1))) with (Z.to_nat max_retries) by lia.
      exact Hfail.
    + unfold t. rewrite sleeps_app, sleeps_retry_events. simpl sleeps.
      rewrite app_nil_r. do 2 f_equal. lia.
Qed.

End Retry.

Lemma request_with_retry_outcomes_witness :
  (let r := request_with_retry Scripted.session_request (lit "GET")
              URL_QUERY_COMPANY MAX_RETRIES HEADERS [] flaky_world in
   r.1.1 = Ret (Some {| status_code := 200;
                        json := Some (PDict [(lit "result", PList [])]) |}) ∧
   sleeps r.2 = [PInt 2; PInt 4]) ∧
  (let r := request_with_retry Scripted.session_request (lit "GET")
              URL_QUERY_COMPANY MAX_RETRIES HEADERS [] down_world in
   r.1.1 = Raise (HTTPError 500) ∧ sleeps r.2 = [PInt 2; PInt 4]).
Proof.
  pose (req := {| req_method := lit "GET"; req_url := URL_QUERY_COMPANY;
                  req_timeout := 15; req_headers := HEADERS; req_params := [] |}).
  split.
  - destruct (proj1 (request_with_retry_outcomes Scripted.session_request (lit "GET")
                       URL_QUERY_COMPANY MAX_RETRIES HEADERS [] flaky_world)
                3 [RequestException (lit "timed out"); HTTPError 503] [Scripted.ok []]
                {| status_code := 200;
                   json := Some (PDict [(lit "result", PList [])]) |}
                [] [EvRequest req]) as (Hrun & Hsleeps & _).
    + unfold MAX_RETRIES. lia.
    + vm_compute. reflexivity.
    + vm_compute. reflexivity.
    + cbv zeta. rewrite Hrun. split; [reflexivity | exact Hsleeps].
  - destruct (proj2 (request_with_retry_outcomes Scripted.session_request (lit "GET")
                       URL_QUERY_COMPANY MAX_RETRIES HEADERS [] down_world)
                [RequestException (lit "timed out"); HTTPError 503] (HTTPError 500) [])
      as (Hrun & Hsleeps).
    + unfold MAX_RETRIES. lia.
    + vm_compute. reflexivity.
    + cbv zeta. rewrite Hrun. split; [reflexivity | exact Hsleeps].
Defined.

(** *** The driver *)

Section Driver.
Context {W : Type}.
Variable session_request : request → W → (exn + response) * W.
Variable read_csv : pystr → W → exn + list csv_row.

Lemma for_cons_run {A S} (x : A) (l : list A) (body : A → S → M W S) s w s1 w1 t1 :
  body x s w = (Ret s1, w1, t1) →
  for_ (x :: l) body s w =
  let '(r, w2, t2) := for_ l body s1 w1 in (r, w2, t1 ++ t2).
Proof. intros Hx. cbn [for_]. rewrite bind_run, Hx. reflexivity. Qed.

Lemma handle_code_fetch_raises sc year total idx code st w e w1 t1 :
  fetch_reports_for_year session_request code year w = (Raise e, w1, t1) →
  handle_code session_request sc year total (idx, code) st w =
  (Ret st, w1,
   code_banner sc total idx code :: t1 ++ [EvPrint (ErrorFetch code year e)]).
Proof.
  intros Hfetch. unfold handle_code. rewrite bind_run. cbn [print emit].
  rewrite bind_run. unfold try_ at 1. rewrite Hfetch.
  rewrite bind_run. cbn [print emit mret M_ret].
  unfold code_banner. reflexivity.
Qed.

(** C5. When the fetch for a code raises, whatever the exception, the driver
    prints the error line and goes on: the step for that code ends normally
    with [summary_rows] and [seen_urls] as they were, and the loop over the
    codes continues with the next code from there. *)
Theorem fetch_failure_is_skipped (sc : script) (year total idx : Z) (code : pystr)
    (rest : list (Z * pystr)) (st : list row * gset pystr) (w w1 : W)
    (e : exn) (t1 : list event) :
  fetch_reports_for_year session_request code year w = (Raise e, w1, t1) →
  let t := code_banner sc total idx code :: t1 ++ [EvPrint (ErrorFetch code year e)] in
  handle_code session_request sc year total (idx, code) st w = (Ret st, w1, t) ∧
  for_ ((idx, code) :: rest) (handle_code session_request sc year total) st w =
  (let '(r, w2, t2) := for_ rest (handle_code session_request sc year total) st w1 in
   (r, w2, t ++ t2)).
Proof.
  intros Hfetch t.
  pose proof (handle_code_fetch_raises sc year total idx code st w e w1 t1 Hfetch)
    as Hstep.
  split; [exact Hstep|]. apply for_cons_run. exact Hstep.
Qed.

Lemma written_app t1 t2 : written (t1 ++ t2) = written t1 ++ written t2.
Proof.
  induction t1 as [|ev t1 IH]; [reflexivity|].
  destruct ev; simpl; rewrite IH; reflexivity.
Qed.

Lemma written_nil t : Forall not_a_write t → written t = [].
Proof.
  induction 1 as [|ev t Hev _ IH]; [reflexivity|].
  destruct ev; simpl in *; [exact IH..|contradiction].
Qed.

Lemma codes_loop_no_write sc year total codes w :
  Forall not_a_write
    (for_ codes (handle_code session_request sc year total) ([], ∅) w).2.
Proof.
  apply (hoare_for codes (handle_code session_request sc year total)
           not_a_write year_inv); [|apply year_inv_init].
  intros x s Hs. apply handle_code_inv. exact Hs.
Qed.

Lemma handle_year_no_rows sc codes year w seen w1 t1 :
  for_ (enumerate codes 1)
    (handle_code session_request sc year (Z.of_nat (length codes))) ([], ∅) w
  = (Ret ([], seen), w1, t1) →
  handle_year session_request sc codes year w =
  (Ret tt, w1, EvPrint (YearBanner year) :: t1 ++ [EvPrint (WarnNoRecords year)]) ∧
  written (EvPrint (YearBanner year) :: t1 ++ [EvPrint (WarnNoRecords year)]) = [].
Proof.
  intros Hloop. split.
  - unfold handle_year. rewrite bind_run. cbn [print emit].
    rewrite bind_run, Hloop. reflexivity.
  - pose proof (codes_loop_no_write sc year (Z.of_nat (length codes))
                  (enumerate codes 1) w) as Hnw.
    rewrite Hloop in Hnw. simpl in Hnw.
    change (EvPrint (YearBanner year) :: t1 ++ [EvPrint (WarnNoRecords year)])
      with ([EvPrint (YearBanner year)] ++ t1 ++ [EvPrint (WarnNoRecords year)]).
    rewrite !written_app, (written_nil t1 Hnw). reflexivity.
Qed.

(** C6. Writing the summary of no rows only prints the warning; a year whose
    codes accumulate no row therefore writes no table, ends normally, and the
    year loop goes on with the next year; and every table that a run writes
    has the header and at least one row. *)
Theorem empty_year_writes_nothing (sc : script) (codes : list pystr) (year : Z) :
  (∀ w : W, write_summary sc year [] w = (Ret tt, w, [EvPrint (WarnNoRecords year)])) ∧
  (∀ (w : W) seen w1 t1 years,
     for_ (enumerate codes 1)
       (handle_code session_request sc year (Z.of_nat (length codes))) ([], ∅) w
     = (Ret ([], seen), w1, t1) →
     let t := EvPrint (YearBanner year) :: t1 ++ [EvPrint (WarnNoRecords year)] in
     written t = [] ∧
     handle_year session_request sc codes year w = (Ret tt, w1, t) ∧
     run_years session_request sc codes (year :: years) w =
     (let '(r, w2, t2) := run_years session_request sc codes years w1 in
      (r, w2, t ++ t2))) ∧
  (∀ (w : W) r rows,
     write_summary sc year (r :: rows) w =
     (Ret tt, w, [ EvWriteCsv (csv_name sc year) fieldnames (r :: rows);
                   EvPrint (OkWritten year (csv_name sc year)) ])) ∧
  (∀ years (w : W),
     Forall (tables (λ header rows, header = fieldnames ∧ rows ≠ []))
            (run_years session_request sc codes years w).2).
Proof.
  split; [|split; [|split]].
  - reflexivity.
  - intros w seen w1 t1 years Hloop t.
    destruct (handle_year_no_rows sc codes year w seen w1 t1 Hloop) as [Hyear Hw].
    split; [exact Hw|]. split; [exact Hyear|].
    unfold run_years. apply for_cons_run. exact Hyear.
  - reflexivity.
  - intros years w.
    eapply Forall_impl; [apply (run_years_tables session_request sc codes years w)|].
    intros ev. apply tables_impl. intros header rows (Hh & Hne & _). split; assumption.
Qed.

(** When every fetch raises, whatever the code, the year and the world, the
    year loop still ends normally, and it writes no table. *)
Lemma run_years_every_fetch_raises sc codes :
  (∀ code year w, ∃ e w1 t1,
     fetch_reports_for_year session_request code year w = (Raise e, w1, t1)) →
  ∀ years w,
    (run_years session_request sc codes years w).1.1 = Ret tt ∧
    written (run_years session_request sc codes years w).2 = [].
Proof.
  intros Hfail.
  assert (Hcodes : ∀ year total l st w, ∃ w1 t1,
            for_ l (handle_code session_request sc year total) st w = (Ret st, w1, t1)).
  { intros year total l. induction l as [|[idx code] l IH]; intros st w.
    - exists w, []. reflexivity.
    - destruct (Hfail code year w) as (e & w1 & t1 & Hfetch).
      rewrite (for_cons_run _ _ _ _ _ _ _ _
                 (handle_code_fetch_raises sc year total idx code st w e w1 t1 Hfetch)).
      destruct (IH st w1) as (w2 & t2 & ->). eexists _, _. reflexivity. }
  intros years. induction years as [|year years IH]; intros w.
  - split; reflexivity.
  - destruct (Hcodes year (Z.of_nat (length codes)) (enumerate codes 1) ([], ∅) w)
      as (w1 & t1 & Hloop).
    destruct (handle_year_no_rows sc codes year w ∅ w1 t1 Hloop) as [Hyear Hw].
    unfold run_years. rewrite (for_cons_run _ _ _ _ _ _ _ _ Hyear).
    fold (run_years session_request sc codes years).
    destruct (IH w1) as [Hr Hw2].
    destruct (run_years session_request sc codes years w1) as [[r w2] t2].
    simpl in *. split; [exact Hr|].
    change (EvPrint (YearBanner year) :: (t1 ++ [EvPrint (WarnNoRecords year)]) ++ t2)
      with ((EvPrint (YearBanner year) :: t1 ++ [EvPrint (WarnNoRecords year)]) ++ t2).
    rewrite written_app, Hw, Hw2. reflexivity.
Qed.

(** C7. When the request succeeds with a response whose body parses to a
    dict, the fetcher returns the list under "result" as it is, and the empty
    list when the dict has no such key, without raising; the parameters
    "beginDate" and "endDate" are the year followed by "-01-01" and
    "-12-31", and every request the fetcher issues carries them. *)
Theorem fetch_reports_for_year_result (code : pystr) (year : Z) (w : W) :
  let req := {| req_method := lit "GET"; req_url := URL_QUERY_COMPANY;
                req_timeout := 15; req_headers := HEADERS;
                req_params := fetch_params code year |} in
  (∀ resp w1 t1 d,
     request_with_retry session_request (lit "GET") URL_QUERY_COMPANY MAX_RETRIES
       HEADERS (fetch_params code year) w = (Ret (Some resp), w1, t1) →
     json resp = Some (PDict d) →
     (∀ l, lookup_last (lit "result") d = Some (PList l) →
           fetch_reports_for_year session_request code year w =
           (Ret (PList l), w1,
            t1 ++ [EvPrint (InfoFetched code year (Z.of_nat (length l)))])) ∧
     (lookup_last (lit "result") d = None →
      fetch_reports_for_year session_request code year w =
      (Ret (PList []), w1, t1 ++ [EvPrint (InfoFetched code year 0)]))) ∧
  lookup_last (lit "beginDate") (req_params req)
    = Some (str_of_int year ++ lit "-01-01") ∧
  lookup_last (lit "endDate") (req_params req)
    = Some (str_of_int year ++ lit "-12-31") ∧
  Forall (λ ev, match ev with EvRequest r => r = req | _ => True end)
         (fetch_reports_for_year session_request code year w).2.
Proof.
  intros req. split; [|split; [|split]].
  - intros resp w1 t1 d Hreq Hjson.
    split.
    + intros l Hl. unfold fetch_reports_for_year. rewrite bind_run, Hreq.
      rewrite bind_run. cbn [resp_json]. rewrite Hjson. cbn [mret M_ret].
      rewrite bind_run. cbn [py_get]. rewrite Hl. reflexivity.
    + intros Hnone. unfold fetch_reports_for_year. rewrite bind_run, Hreq.
      rewrite bind_run. cbn [resp_json]. rewrite Hjson. cbn [mret M_ret].
      rewrite bind_run. cbn [py_get]. rewrite Hnone. reflexivity.
  - reflexivity.
  - reflexivity.
  - apply (fetch_reports_for_year_events session_request code year
             (λ ev, match ev with EvRequest r => r = req | _ => True end)).
    + reflexivity.
    + split; intros; exact I.
Qed.

End Driver.

Lemma fetch_failure_is_skipped_witness :
  (for_ (enumerate [lit "600000"; lit "600519"] 1)
     (handle_code Scripted.session_request Mainboard 2022 2) ([], ∅)
     (down_world ++ [Scripted.ok [Scripted.record "Report" "2022-03-30" "/a/r.pdf"]])).1.1
  = Ret ([ {| code := lit "600519"; title := lit "Report"; date := lit "2022-03-30";
              url := lit "https://static.sse.com.cn/a/r.pdf" |} ],
         {[ lit "https://static.sse.com.cn/a/r.pdf" ]} ∪ ∅).
Proof.
  pose (w := down_world ++ [Scripted.ok [Scripted.record "Report" "2022-03-30" "/a/r.pdf"]]).
  destruct (fetch_failure_is_skipped Scripted.session_request Mainboard 2022 2 1
              (lit "600000") [(2, lit "600519")] ([], ∅) w
              [Scripted.ok [Scripted.record "Report" "2022-03-30" "/a/r.pdf"]]
              (HTTPError 500)
              (fetch_reports_for_year Scripted.session_request (lit "600000") 2022 w).2)
    as [_ Hloop].
  - vm_compute. reflexivity.
  - change (enumerate [lit "600000"; lit "600519"] 1)
      with [(1, lit "600000"); (2, lit "600519")].
    fold w. rewrite Hloop. vm_compute. reflexivity.
Defined.

Lemma empty_year_writes_nothing_witness :
  let r := run_years Scripted.session_request Links CODES [2022; 2023] empty_world in
  r.1.1 = Ret tt ∧ written r.2 = [] ∧
  List.filter (λ ev, match ev with EvPrint (WarnNoRecords _) => true | _ => false end) r.2
  = [EvPrint (WarnNoRecords 2022); EvPrint (WarnNoRecords 2023)].
Proof.
  destruct (proj1 (proj2 (empty_year_writes_nothing Scripted.session_request
                            Links CODES 2022))
              empty_world ∅ [Scripted.ok []; Scripted.ok []; Scripted.ok []]
              (for_ (enumerate CODES 1)
                 (handle_code Scripted.session_request Links 2022 3) ([], ∅)
                 empty_world).2
              [2023]) as (_ & _ & Hrun).
  - vm_compute. reflexivity.
  - cbv zeta. rewrite Hrun. vm_compute. repeat split; reflexivity.
Defined.

Lemma fetch_reports_for_year_result_witness :
  (fetch_reports_for_year Scripted.session_request (lit "600000") 2022
     [Scripted.ok [Scripted.record "Report" "2022-03-30" "/a/r.pdf"]]).1.1
  = Ret (PList [Scripted.record "Report" "2022-03-30" "/a/r.pdf"]) ∧
  (fetch_reports_for_year Scripted.session_request (lit "600000") 2022
     [inr {| status_code := 200; json := Some (PDict []) |}]).1.1
  = Ret (PList []).
Proof.
  pose (req := {| req_method := lit "GET"; req_url := URL_QUERY_COMPANY;
                  req_timeout := 15; req_headers := HEADERS;
                  req_params := fetch_params (lit "600000") 2022 |}).
  split.
  - destruct (proj1 (fetch_reports_for_year_result Scripted.session_request
                       (lit "600000") 2022
                       [Scripted.ok [Scripted.record "Report" "2022-03-30" "/a/r.pdf"]])
                {| status_code := 200;
                   json := Some (PDict [(lit "result",
                             PList [Scripted.record "Report" "2022-03-30" "/a/r.pdf"])]) |}
                [] [EvRequest req]
                [(lit "result", PList [Scripted.record "Report" "2022-03-30" "/a/r.pdf"])])
      as [Hlist _].
    + vm_compute. reflexivity.
    + reflexivity.
    + rewrite (Hlist [Scripted.record "Report" "2022-03-30" "/a/r.pdf"]);
        [reflexivity | vm_compute; reflexivity].
  - destruct (proj1 (fetch_reports_for_year_result Scripted.session_request
                       (lit "600000") 2022
                       [inr {| status_code := 200; json := Some (PDict []) |}])
                {| status_code := 200; json := Some (PDict []) |}
                [] [EvRequest req] [])
      as [_ Hnone].
    + vm_compute. reflexivity.
    + reflexivity.
    + rewrite Hnone; reflexivity.
Defined.

(** A body whose "result" is [null] has no length: the fetcher raises
    [TypeError], which the driver reports like any failed fetch. *)
Example fetch_null_result :
  (fetch_reports_for_year Scripted.session_request (lit "600000") 2022
     [inr {| status_code := 200; json := Some (PDict [(lit "result", PNone)]) |}]).1.1
  = Raise TypeError.
Proof. vm_compute. reflexivity. Qed.

(** The dates of the configured years. *)
Example fetch_params_2022 :
  lookup_last (lit "beginDate") (fetch_params (lit "600000") 2022) = Some (lit "2022-01-01") ∧
  lookup_last (lit "endDate") (fetch_params (lit "600000") 2022) = Some (lit "2022-12-31") ∧
  lookup_last (lit "beginDate") (fetch_params (lit "600000") 2023) = Some (lit "2023-01-01") ∧
  lookup_last (lit "endDate") (fetch_params (lit "600000") 2023) = Some (lit "2023-12-31").
Proof. vm_compute. repeat split; reflexivity. Qed.

(** *** Reading the fields of a raw record *)

Lemma lstrip_spaces (s : pystr) : forallb isspace s = true → lstrip s = [].
Proof.
  induction s as [|c s IH]; [reflexivity|]. simpl.
  intros [Hc Hs]%andb_prop. rewrite Hc. apply IH, Hs.
Qed.

(** A string of whitespace only is empty after trimming. *)
Lemma strip_spaces (s : pystr) : forallb isspace s = true → strip s = [].
Proof. intros Hs. unfold strip. rewrite (lstrip_spaces s Hs). reflexivity. Qed.

Lemma pure_ret {W A} (a : A) : pure (W:=W) (mret a).
Proof. intros w. eexists. reflexivity. Qed.

Lemma pure_raise {W A} e : pure (W:=W) (A:=A) (raise e).
Proof. intros w. eexists. reflexivity. Qed.

Lemma pure_bind {W A B} (m : M W A) (f : A → M W B) :
  pure m → (∀ a, pure (f a)) → pure (m ≫= f).
Proof.
  intros Hm Hf w. rewrite bind_run. destruct (Hm w) as [[a|e] ->].
  - destruct (Hf a w) as [r ->]. eexists. reflexivity.
  - eexists. reflexivity.
Qed.

Lemma py_get_pure {W} obj key fallback : pure (W:=W) (py_get obj key fallback).
Proof. destruct obj; try apply pure_raise. apply pure_ret. Qed.

Lemma py_strip_pure {W} obj : pure (W:=W) (py_strip obj).
Proof. destruct obj; try apply pure_raise. apply pure_ret. Qed.

Lemma read_field_pure {W} sc item key : pure (W:=W) (read_field sc item key).
Proof.
  destruct sc; simpl; (apply pure_bind; [apply py_get_pure|]); intros v;
    apply py_strip_pure.
Qed.

(** What [read_field] gives on a dict: a missing key reads as the empty
    string in both scripts, a string is trimmed in both, and [None] reads as
    the empty string in the Mainboard script. *)
Lemma read_field_spec {W} sc (d : list (pystr * pyval)) key (w : W) :
  (lookup_last key d = None → read_field sc (PDict d) key w = (Ret [], w, [])) ∧
  (∀ s, lookup_last key d = Some (PStr s) →
        read_field sc (PDict d) key w = (Ret (strip s), w, [])) ∧
  (lookup_last key d = Some PNone →
   read_field Mainboard (PDict d) key w = (Ret [], w, [])).
Proof.
  split; [|split].
  - intros Hk. destruct sc; simpl; rewrite bind_run; cbn [py_get mret M_ret];
      rewrite Hk; reflexivity.
  - intros s Hk. destruct sc; simpl; rewrite bind_run; cbn [py_get mret M_ret];
      rewrite Hk; [reflexivity|]. destruct s; reflexivity.
  - intros Hk. simpl. rewrite bind_run. cbn [py_get mret M_ret]. rewrite Hk.
    reflexivity.
Qed.

(** A record whose fields read without error and whose URL reads as the
    empty string is skipped without a trace: no row, nothing added to the
    set, no event. *)
Lemma handle_item_empty_url {W} sc code item st (w : W) title date :
  read_field sc item (lit "TITLE") w = (Ret title, w, []) →
  read_field sc item (lit "SSEDATE") w = (Ret date, w, []) →
  read_field sc item (lit "URL") w = (Ret [], w, []) →
  handle_item sc code item st w = (Ret st, w, []).
Proof.
  intros Ht Hd Hu. destruct st as [summary_rows seen_urls]. unfold handle_item.
  rewrite bind_run, Ht. rewrite bind_run, Hd. rewrite bind_run, Hu. reflexivity.
Qed.

(** C8 at a record with a [None] title: the Links script raises
    [AttributeError] where the Mainboard script reads the empty string, and
    the exception ends the run of the Links script before any table is
    written. *)
Theorem links_read_field_none_raises :
  (∀ (W : Type) (w : W),
     read_field Links null_title_record (lit "TITLE") w = (Raise AttributeError, w, [])) ∧
  (∀ (W : Type) (w : W),
     read_field Mainboard null_title_record (lit "TITLE") w = (Ret [], w, [])) ∧
  (let r := main Scripted.session_request (Scripted.read_csv None) Links
              [Scripted.ok [null_title_record]] in
   r.1.1 = Raise AttributeError ∧ written r.2 = []).
Proof.
  split; [|split].
  - intros W w. reflexivity.
  - intros W w. reflexivity.
  - vm_compute. split; reflexivity.
Qed.

(** C3 at a record with a [None] URL: the Links script raises
    [AttributeError] where the Mainboard script skips the record, and the
    exception ends the run of the Links script before any table is
    written. *)
Theorem links_none_url_raises :
  (∀ (W : Type) (w : W) code st,
     handle_item Links code null_url_record st w = (Raise AttributeError, w, [])) ∧
  (∀ (W : Type) (w : W) code st,
     handle_item Mainboard code null_url_record st w = (Ret st, w, [])) ∧
  (let r := main Scripted.session_request (Scripted.read_csv None) Links
              [Scripted.ok [null_url_record]] in
   r.1.1 = Raise AttributeError ∧ written r.2 = []).
Proof.
  split; [|split].
  - intros W w code [summary_rows seen_urls]. reflexivity.
  - intros W w code [summary_rows seen_urls]. reflexivity.
  - vm_compute. split; reflexivity.
Qed.

Lemma read_field_text {W} sc d key (w : W) :
  reads_as_text sc (lookup_last key d) →
  ∃ s, read_field sc (PDict d) key w = (Ret s, w, []).
Proof.
  intros Hv. destruct (read_field_spec sc d key w) as (Hmiss & Hstr & Hnone).
  destruct (lookup_last key d) as [[| | | |s| |]|]; simpl in Hv; try contradiction.
  - subst sc. exists []. apply Hnone. reflexivity.
  - exists (strip s). apply Hstr. reflexivity.
  - exists []. apply Hmiss. reflexivity.
Qed.

Lemma read_field_empty {W} sc d key (w : W) :
  reads_as_empty sc (lookup_last key d) →
  read_field sc (PDict d) key w = (Ret [], w, []).
Proof.
  intros Hv. destruct (read_field_spec sc d key w) as (Hmiss & Hstr & Hnone).
  destruct (lookup_last key d) as [[| | | |s| |]|]; simpl in Hv; try contradiction.
  - subst sc. apply Hnone. reflexivity.
  - rewrite <- Hv. apply Hstr. reflexivity.
  - apply Hmiss. reflexivity.
Qed.

(** Where C3 holds: in both scripts a record whose URL is absent, empty or
    whitespace only, and in the Mainboard script also one whose URL is
    [None], is skipped without a row, without an entry in the set and without
    an event, whatever text the title and the date are. *)
Lemma empty_url_is_skipped {W} sc code d st (w : W) :
  reads_as_text sc (lookup_last (lit "TITLE") d) →
  reads_as_text sc (lookup_last (lit "SSEDATE") d) →
  reads_as_empty sc (lookup_last (lit "URL") d) →
  handle_item sc code (PDict d) st w = (Ret st, w, []).
Proof.
  intros Ht Hd Hu.
  destruct (read_field_text sc d (lit "TITLE") w Ht) as [title Htitle].
  destruct (read_field_text sc d (lit "SSEDATE") w Hd) as [date Hdate].
  eapply handle_item_empty_url; [exact Htitle | exact Hdate |].
  apply read_field_empty, Hu.
Qed.

(** A URL of blanks and a tab is skipped by both scripts. *)
Example whitespace_url_is_skipped :
  ∀ sc code st,
    handle_item (W:=unit) sc code
      (PDict [ (lit "TITLE", PStr (lit "Report")); (lit "URL", PStr [0x20; 0x09; 0x3000]%N) ])
      st tt
    = (Ret st, tt, []).
Proof.
  intros sc code st. apply empty_url_is_skipped; [exact I | exact I |].
  apply strip_spaces. reflexivity.
Qed.

(** *** Loading the codes *)

Lemma or_chain_first_nonempty (r : csv_row) :
  py_or (py_or (py_or (row_get r (lit "code")) (row_get r zhengquan_daima))
               (row_get r (lit "stock_code")))
        (PStr [])
  = PStr (first_nonempty r).
Proof.
  unfold first_nonempty, column, row_get.
  destruct (lookup_last (lit "code") r) as [[[|c1 s1]|]|];
    destruct (lookup_last zhengquan_daima r) as [[[|c2 s2]|]|];
    destruct (lookup_last (lit "stock_code") r) as [[[|c3 s3]|]|];
    reflexivity.
Qed.

Lemma load_row_run {W} (r : csv_row) codes (w : W) :
  load_row r codes w =
  (Ret (codes ++ codes_of_rows [r]), w, []).
Proof.
  unfold load_row, codes_of_rows. rewrite or_chain_first_nonempty, bind_run.
  cbn [py_strip mret M_ret fmap list_fmap List.filter].
  destruct (strip (first_nonempty r)) as [|c s]; cbn [truthy length Nat.eqb negb nonempty].
  - rewrite app_nil_r. reflexivity.
  - reflexivity.
Qed.

Lemma codes_of_rows_app rows1 rows2 :
  codes_of_rows (rows1 ++ rows2) = codes_of_rows rows1 ++ codes_of_rows rows2.
Proof. unfold codes_of_rows. rewrite fmap_app. apply List.filter_app. Qed.

Lemma load_rows_run {W} rows : ∀ codes (w : W),
  for_ rows load_row codes w = (Ret (codes ++ codes_of_rows rows), w, []).
Proof.
  induction rows as [|r rows IH]; intros codes w.
  - simpl. rewrite app_nil_r. reflexivity.
  - erewrite for_cons_run by apply load_row_run. rewrite IH.
    change (r :: rows) with ([r] ++ rows).
    rewrite codes_of_rows_app, app_assoc. reflexivity.
Qed.

(** C9, as stated, fails: a missing file makes the loader raise instead of
    returning the empty sequence, and a value with surrounding whitespace is
    returned trimmed, not as found (a whitespace-only value found first is
    dropped with its row). *)
Lemma load_codes_from_csv_counterexample :
  (load_codes_from_csv (Scripted.read_csv None) CODES_CSV []).1.1 ≠ Ret [] ∧
  (let rows := [ [(lit "code", Some (lit " 600000"))] ] in
   (load_codes_from_csv (Scripted.read_csv (Some rows)) CODES_CSV []).1.1
     ≠ Ret (codes_as_found rows)) ∧
  (let rows := [ [(lit "code", Some (lit " ")); (lit "stock_code", Some (lit "600004"))] ] in
   (load_codes_from_csv (Scripted.read_csv (Some rows)) CODES_CSV []).1.1
     ≠ Ret (codes_as_found rows)).
Proof. vm_compute. repeat split; discriminate. Qed.

(** C9, amended: when the file can be read, the loader returns, in row
    order, the first non-empty value among the columns "code", U+8BC1 U+5238
    U+4EE3 U+7801 and "stock_code" of each row, trimmed, skipping the rows
    where nothing is left; every code returned is non-empty; rows are handled
    one by one, so duplicates are kept; a file without rows gives the empty
    list; and when the file cannot be opened the loader raises the error. *)
Theorem load_codes_from_csv_result {W : Type}
    (read_csv : pystr → W → exn + list csv_row) (path : pystr) (w : W) :
  (∀ rows, read_csv path w = inr rows →
     load_codes_from_csv read_csv path w =
     (Ret (codes_of_rows rows), w,
      [EvPrint (InfoLoaded path (Z.of_nat (length (codes_of_rows rows))))]) ∧
     Forall (λ c, c ≠ []) (codes_of_rows rows)) ∧
  (read_csv path w = inr [] →
     load_codes_from_csv read_csv path w = (Ret [], w, [EvPrint (InfoLoaded path 0)])) ∧
  (∀ e, read_csv path w = inl e →
     load_codes_from_csv read_csv path w = (Raise e, w, [])) ∧
  (∀ rows1 rows2,
     codes_of_rows (rows1 ++ rows2) = codes_of_rows rows1 ++ codes_of_rows rows2).
Proof.
  assert (Hread : ∀ rows, read_csv path w = inr rows →
            load_codes_from_csv read_csv path w =
            (Ret (codes_of_rows rows), w,
             [EvPrint (InfoLoaded path (Z.of_nat (length (codes_of_rows rows))))])).
  { intros rows Hrows. unfold load_codes_from_csv. rewrite bind_run.
    unfold open_csv at 1. rewrite Hrows. rewrite bind_run, load_rows_run.
    reflexivity. }
  split; [|split; [|split]].
  - intros rows Hrows. split; [apply Hread, Hrows|].
    unfold codes_of_rows. apply Forall_forall. intros c Hc.
    apply list_elem_of_In, filter_In in Hc. destruct Hc as [_ Hc].
    destruct c; [discriminate Hc | discriminate].
  - intros Hrows. apply (Hread [] Hrows).
  - intros e He. unfold load_codes_from_csv. rewrite bind_run.
    unfold open_csv at 1. rewrite He. reflexivity.
  - apply codes_of_rows_app.
Qed.

Lemma load_codes_from_csv_result_witness :
  (load_codes_from_csv (Scripted.read_csv (Some sample_rows)) CODES_CSV []).1.1
    = Ret [lit "600000"; lit "600000"; lit "600004"; lit "600006"] ∧
  (load_codes_from_csv (Scripted.read_csv (Some [])) CODES_CSV []).1.1 = Ret [] ∧
  (load_codes_from_csv (Scripted.read_csv None) CODES_CSV []).1.1
    = Raise (OSError (lit "No such file or directory")).
Proof.
  split; [|split].
  - destruct (proj1 (load_codes_from_csv_result
                       (Scripted.read_csv (Some sample_rows)) CODES_CSV [])
                sample_rows) as [Hrun _]; [reflexivity|].
    rewrite Hrun. vm_compute. reflexivity.
  - rewrite (proj1 (proj2 (load_codes_from_csv_result
                             (Scripted.read_csv (Some [])) CODES_CSV []))
               eq_refl).
    reflexivity.
  - rewrite (proj1 (proj2 (proj2 (load_codes_from_csv_result
                                    (Scripted.read_csv None) CODES_CSV [])))
               (OSError (lit "No such file or directory")) eq_refl).
    reflexivity.
Defined.

(** The Mainboard script stops before any request when the codes file is
    missing. *)
Example mainboard_missing_codes_file :
  main Scripted.session_request (Scripted.read_csv None) Mainboard empty_world
  = (Raise (OSError (lit "No such file or directory")), empty_world, []).
Proof. vm_compute. reflexivity. Qed.

(** With every request refused, the Links script prints an error for each
    code of each year, writes no table and ends normally. *)
Example links_all_fetches_fail :
  let r := main Scripted.session_request (Scripted.read_csv None) Links [] in
  r.1.1 = Ret tt ∧ written r.2 = [] ∧
  length (List.filter (λ ev, match ev with EvPrint (ErrorFetch _ _ _) => true
                                         | _ => false end) r.2) = 6%nat.
Proof. vm_compute. repeat split; reflexivity. Qed.

(** * Further properties *)

(** ** Trimming *)

Lemma lstrip_length (s : pystr) : (length (lstrip s) ≤ length s)%nat.
Proof.
  induction s as [|c s IH]; [reflexivity|]. simpl.
  destruct (isspace c); simpl; lia.
Qed.

(** [lstrip] leaves nothing or something that begins with a non-space. *)
Lemma lstrip_head (s : pystr) :
  lstrip s = [] ∨ ∃ c t, lstrip s = c :: t ∧ isspace c = false.
Proof.
  induction s as [|c s IH]; [left; reflexivity|]. simpl.
  destruct (isspace c) eqn:Hc; [exact IH|]. right. exists c, s. split; [reflexivity | exact Hc].
Qed.

Lemma lstrip_fixed (s : pystr) :
  lstrip s = s ↔ s = [] ∨ ∃ c t, s = c :: t ∧ isspace c = false.
Proof.
  split.
  - intros Hs. destruct (lstrip_head s) as [H | (c & t & H & Hc)]; rewrite Hs in H.
    + left. exact H.
    + right. exists c, t. split; assumption.
  - intros [-> | (c & t & -> & Hc)]; [reflexivity|]. simpl. rewrite Hc. reflexivity.
Qed.

(** What [lstrip] removes is a prefix. *)
Lemma lstrip_suffix (s : pystr) : ∃ sp, s = sp ++ lstrip s.
Proof.
  induction s as [|c s [sp IH]]; [exists []; reflexivity|]. simpl.
  destruct (isspace c).
  - exists (c :: sp). simpl. f_equal. exact IH.
  - exists []. reflexivity.
Qed.

Lemma rstrip_prefix (s : pystr) : ∃ sp, s = rstrip s ++ sp.
Proof.
  unfold rstrip. destruct (lstrip_suffix (rev s)) as [sp Hsp].
  exists (rev sp). rewrite <- rev_app_distr, <- Hsp, rev_involutive. reflexivity.
Qed.

Lemma lstrip_rstrip (s : pystr) : lstrip s = s → lstrip (rstrip s) = rstrip s.
Proof.
  intros Hs. apply lstrip_fixed. apply lstrip_fixed in Hs.
  destruct (rstrip_prefix s) as [sp Hsp].
  destruct (rstrip s) as [|c t] eqn:Hr; [left; reflexivity|]. right.
  exists c, t. split; [reflexivity|].
  destruct Hs as [Hs | (c' & t' & Hs & Hc)]; rewrite Hs in Hsp; simpl in Hsp.
  - discriminate.
  - injection Hsp as -> _. exact Hc.
Qed.

Lemma rstrip_idem (s : pystr) : rstrip (rstrip s) = rstrip s.
Proof.
  unfold rstrip. rewrite rev_involutive. f_equal.
  apply lstrip_fixed. destruct (lstrip_head (rev s)) as [-> | (c & t & -> & Hc)].
  - left. reflexivity.
  - right. exists c, t. split; [reflexivity | exact Hc].
Qed.

(** What [strip] returns is trimmed. *)
Lemma strip_trimmed (s : pystr) : trimmed (strip s).
Proof.
  unfold trimmed, strip.
  assert (Hl : lstrip (lstrip s) = lstrip s).
  { apply lstrip_fixed. destruct (lstrip_head s) as [-> | (c & t & -> & Hc)].
    - left. reflexivity.
    - right. exists c, t. split; [reflexivity | exact Hc]. }
  rewrite (lstrip_rstrip (lstrip s) Hl). apply rstrip_idem.
Qed.

(** ** Which raw URLs are taken for the same document *)

Lemma startswith_base (u : pystr) : startswith (URL_PDF_BASE ++ u) (lit "http") = true.
Proof. reflexivity. Qed.

(** X1. Two raw URLs resolve to the same URL exactly when they are equal or
    one is the other, not beginning with "http", prefixed with the base. *)
Theorem pdf_url_collisions (u1 u2 : pystr) :
  pdf_url u1 = pdf_url u2 ↔
  u1 = u2 ∨
  (startswith u1 (lit "http") = false ∧ u2 = URL_PDF_BASE ++ u1) ∨
  (startswith u2 (lit "http") = false ∧ u1 = URL_PDF_BASE ++ u2).
Proof.
  unfold pdf_url. split.
  - destruct (startswith u1 (lit "http")) eqn:H1,
             (startswith u2 (lit "http")) eqn:H2; simpl; intros H.
    + left. exact H.
    + right. right. split; [reflexivity | exact H].
    + right. left. split; [reflexivity | symmetry; exact H].
    + left. apply (app_inv_head URL_PDF_BASE). exact H.
  - intros [-> | [[H1 ->] | [H2 ->]]].
    + reflexivity.
    + rewrite H1, startswith_base. reflexivity.
    + rewrite H2, startswith_base. reflexivity.
Qed.

(** ** Reading a field, case by case *)

Lemma read_field_eval {W : Type} (sc : script) (item : pyval) (key : pystr) (w : W) :
  read_field sc item key w =
  match item with
  | PDict d =>
      match lookup_last key d with
      | None => (Ret [], w, [])
      | Some (PStr s) => (Ret (strip s), w, [])
      | Some v =>
          match sc with
          | Links => (Raise AttributeError, w, [])
          | Mainboard =>
              if truthy v then (Raise AttributeError, w, []) else (Ret [], w, [])
          end
      end
  | _ => (Raise AttributeError, w, [])
  end.
Proof.
  destruct item as [| | | | | |d]; try (destruct sc; reflexivity).
  destruct sc; simpl; rewrite bind_run; cbn [py_get mret M_ret];
    (destruct (lookup_last key d) as [v|]; [|reflexivity]).
  - destruct v; reflexivity.
  - change (default PNone (Some v)) with v.
    destruct v as [|b|z|f|s|l|d']; try (destruct s; reflexivity);
      unfold py_or; destruct (truthy _); reflexivity.
Qed.

(** X2. What reading a field of a raw record gives, in full: a record that
    is not a dict raises [AttributeError]; a missing key reads as the empty
    string and a string as its trimmed text in both scripts; any other value
    raises [AttributeError] in the Links script, and in the Mainboard script
    reads as the empty string when it is falsy ([None], [false], zero, an
    empty list or dict) and raises [AttributeError] when it is truthy.
    Nothing is emitted and the world is unchanged. *)
Theorem read_field_cases {W : Type} (sc : script) (item : pyval) (key : pystr) (w : W) :
  read_field sc item key w =
  match item with
  | PDict d =>
      match lookup_last key d with
      | None => (Ret [], w, [])
      | Some (PStr s) => (Ret (strip s), w, [])
      | Some v =>
          match sc with
          | Links => (Raise AttributeError, w, [])
          | Mainboard =>
              if truthy v then (Raise AttributeError, w, []) else (Ret [], w, [])
          end
      end
  | _ => (Raise AttributeError, w, [])
  end.
Proof. apply read_field_eval. Qed.

(** What a field reads as, when it reads: trimmed text, and the trimmed
    string when the record is a dict with a string under the key. *)
Lemma read_field_returns {W : Type} sc item key (P : event → Prop) :
  hoare (W:=W) (read_field sc item key) P
    (λ r, trimmed r ∧
          ∀ d s, item = PDict d → lookup_last key d = Some (PStr s) → r = strip s).
Proof.
  assert (Hnil : trimmed []) by reflexivity.
  intros w. rewrite read_field_eval.
  destruct item as [| | | | | |d]; try (split; [constructor | exact I]).
  destruct (lookup_last key d) as [v|] eqn:Hk.
  - destruct v as [|b|z|f|s|l|d'], sc; try destruct (truthy _);
      (split; [constructor|]);
      first [ exact I
            | split; [apply strip_trimmed
                     | intros d0 s0 [= <-]; rewrite Hk; intros [= <-]; reflexivity]
            | split; [exact Hnil
                     | intros d0 s0 [= <-]; rewrite Hk; discriminate] ].
  - split; [constructor|]. split;
      [exact Hnil | intros d0 s0 [= <-]; rewrite Hk; discriminate].
Qed.

(** ** Counting requests *)

Lemma requests_app t1 t2 : requests (t1 ++ t2) = (requests t1 + requests t2)%nat.
Proof.
  induction t1 as [|ev t1 IH]; [reflexivity|].
  destruct ev; simpl; rewrite IH; reflexivity.
Qed.

Section Counting.
Context {W : Type}.

Lemma at_most_ret {A} (a : A) n : at_most (W:=W) (mret a) n.
Proof. intros w. simpl. lia. Qed.

Lemma at_most_raise {A} e n : at_most (W:=W) (A:=A) (raise e) n.
Proof. intros w. simpl. lia. Qed.

Lemma at_most_emit ev n : (requests [ev] ≤ n)%nat → at_most (W:=W) (emit ev) n.
Proof. intros Hev w. exact Hev. Qed.

Lemma at_most_bind {A B} (m : M W A) (f : A → M W B) n1 n2 :
  at_most m n1 → (∀ a, at_most (f a) n2) → at_most (m ≫= f) (n1 + n2).
Proof.
  intros Hm Hf w. rewrite bind_run. specialize (Hm w).
  destruct (m w) as [[[a|e] w1] t1]; simpl in *; [|lia].
  specialize (Hf a w1). destruct (f a w1) as [[r w2] t2]. simpl in *.
  rewrite requests_app. lia.
Qed.

Lemma at_most_weaken {A} (m : M W A) n n' :
  at_most m n → (n ≤ n')%nat → at_most m n'.
Proof. intros Hm Hn w. specialize (Hm w). lia. Qed.

Lemma at_most_try {A} (m : M W A) n : at_most m n → at_most (try_ m) n.
Proof.
  intros Hm w. specialize (Hm w). unfold try_.
  destruct (m w) as [[[a|e] w1] t1]; exact Hm.
Qed.

Lemma at_most_for {A S} (l : list A) (body : A → S → M W S) n :
  (∀ x s, at_most (body x s) n) → ∀ s, at_most (for_ l body s) (length l * n).
Proof.
  intros Hbody. induction l as [|x l IH]; intros s; simpl.
  - apply at_most_ret.
  - apply at_most_bind; [apply Hbody | exact IH].
Qed.

Lemma at_most_pure {A} (m : M W A) n : pure m → at_most m n.
Proof. intros Hm w. destruct (Hm w) as [r ->]. simpl. lia. Qed.

End Counting.

Lemma range_length a b : length (range a b) = Z.to_nat (b - a).
Proof. unfold range. rewrite length_map, length_seq. reflexivity. Qed.

Lemma enumerate_length {A} (l : list A) start : length (enumerate l start) = length l.
Proof.
  revert start. induction l as [|x l IH]; intros start; [reflexivity|].
  simpl. rewrite IH. reflexivity.
Qed.

Lemma enumerate_elem {A} (l : list A) start idx (x : A) :
  (idx, x) ∈ enumerate l start → x ∈ l.
Proof.
  revert start. induction l as [|y l IH]; intros start; simpl.
  - intros H. inversion H.
  - intros [[= _ ->] | H]%elem_of_cons; [left | right; eapply IH; exact H].
Qed.

Section RetryMore.
Context {W : Type}.
Variable session_request : request → W → (exn + response) * W.

Lemma attempt_request_at_most req : at_most (attempt_request session_request req) 1.
Proof. intros w. rewrite attempt_request_trace. simpl. lia. Qed.

Lemma retry_loop_at_most attempts max_retries req :
  at_most (retry_loop session_request attempts max_retries req) (length attempts).
Proof.
  induction attempts as [|attempt attempts IH]; simpl.
  - apply at_most_ret.
  - change (S (length attempts)) with (1 + length attempts)%nat.
    apply at_most_bind; [apply at_most_try, attempt_request_at_most|].
    intros [e|resp]; [|apply at_most_ret].
    change (length attempts) with (0 + length attempts)%nat.
    apply at_most_bind; [apply at_most_emit; simpl; lia|]. intros _.
    destruct (attempt =? max_retries); [apply at_most_raise|].
    change (length attempts) with (0 + length attempts)%nat.
    apply at_most_bind; [apply at_most_emit; simpl; lia|]. intros _. exact IH.
Qed.

(** X3. Whatever the session answers, [request_with_retry] issues at most
    [max_retries] requests, each with the method, URL, headers and
    parameters it was given and a timeout of 15; with [max_retries] below 1
    it issues none and returns [None] instead of a response. *)
Theorem request_with_retry_request_bound (method url : pystr) (max_retries : Z)
    (headers params : list (pystr * pystr)) (w : W) :
  let req := {| req_method := method; req_url := url; req_timeout := 15;
                req_headers := headers; req_params := params |} in
  let run := request_with_retry session_request method url max_retries headers params w in
  (requests run.2 ≤ Z.to_nat max_retries)%nat ∧
  Forall (λ ev, match ev with EvRequest r => r = req | _ => True end) run.2 ∧
  (max_retries ≤ 0 → run = (Ret None, w, [])).
Proof.
  intros req run. split; [|split].
  - pose proof (retry_loop_at_most (range 1 (max_retries + 1)) max_retries req w) as H.
    rewrite range_length in H. unfold run, request_with_retry. fold req. lia.
  - apply (retry_loop_events session_request (range 1 (max_retries + 1)) max_retries req
             (λ ev, match ev with EvRequest r => r = req | _ => True end));
      [reflexivity | split; intros; exact I].
  - intros Hmax. apply request_with_retry_no_attempts. exact Hmax.
Qed.

Lemma retry_loop_returned attempts max_retries req :
  ∀ w resp w1 t,
    retry_loop session_request attempts max_retries req w = (Ret (Some resp), w1, t) →
    ∃ n es w0,
      (n < length attempts)%nat ∧
      failed_attempts session_request req n w = Some (es, w0) ∧
      session_request req w0 = (inr resp, w1) ∧
      error_status (status_code resp) = false.
Proof.
  induction attempts as [|attempt attempts IH]; intros w resp w1 t Hrun.
  - discriminate Hrun.
  - destruct (attempt_request session_request req w) as [[[resp0|e] w'] t'] eqn:Hatt.
    + rewrite (retry_loop_success_step _ _ _ _ _ _ _ _ _ Hatt) in Hrun.
      injection Hrun as -> -> _.
      exists O, [], w. split; [simpl; lia|]. split; [reflexivity|].
      rewrite attempt_request_outcome in Hatt.
      destruct (session_request req w) as [[e|r] w''] eqn:Hreq; [discriminate Hatt|].
      fold (error_status (status_code r)) in Hatt.
      destruct (error_status (status_code r)) eqn:Hst; [discriminate Hatt|].
      injection Hatt as -> -> _. split; [reflexivity | exact Hst].
    + rewrite (retry_loop_fail_step _ _ _ _ _ _ _ _ _ Hatt) in Hrun.
      destruct (attempt =? max_retries); [discriminate Hrun|].
      destruct (retry_loop session_request attempts max_retries req w')
        as [[r w2] t2] eqn:Hrest.
      injection Hrun as -> -> _.
      destruct (IH _ _ _ _ Hrest) as (n & es & w0 & Hn & Hfail & Hans & Hst).
      exists (S n), (e :: es), w0. split; [simpl; lia|]. split; [|split; assumption].
      cbn [failed_attempts]. rewrite Hatt, Hfail. reflexivity.
Qed.

(** X4. A response that [request_with_retry] returns is the answer of the
    session in this very run: some number [n] of attempts, fewer than
    [max_retries], failed from the world the call started in, and the
    session then answered the same request with that response, whose status
    is not in the 400s or 500s, leaving the world the call ends in. *)
Theorem request_with_retry_returns_good_status (method url : pystr) (max_retries : Z)
    (headers params : list (pystr * pystr)) (w w1 : W) (resp : response)
    (t : list event) :
  request_with_retry session_request method url max_retries headers params w
    = (Ret (Some resp), w1, t) →
  let req := {| req_method := method; req_url := url; req_timeout := 15;
                req_headers := headers; req_params := params |} in
  ∃ (n : nat) (es : list exn) (w0 : W),
    Z.of_nat n < max_retries ∧
    failed_attempts session_request req n w = Some (es, w0) ∧
    session_request req w0 = (inr resp, w1) ∧
    error_status (status_code resp) = false.
Proof.
  intros Hrun req. unfold request_with_retry in Hrun. fold req in Hrun.
  destruct (retry_loop_returned _ _ _ _ _ _ _ Hrun) as (n & es & w0 & Hn & H).
  rewrite range_length in Hn. exists n, es, w0. split; [lia | exact H].
Qed.

End RetryMore.

Lemma request_with_retry_returns_good_status_witness :
  let req := {| req_method := lit "GET"; req_url := URL_QUERY_COMPANY;
                req_timeout := 15; req_headers := HEADERS; req_params := [] |} in
  ∃ (n : nat) (es : list exn) (w0 : list (exn + response)),
    Z.of_nat n < MAX_RETRIES ∧
    failed_attempts Scripted.session_request req n flaky_world = Some (es, w0) ∧
    Scripted.session_request req w0
      = (inr {| status_code := 200; json := Some (PDict [(lit "result", PList [])]) |},
         []) ∧
    error_status 200 = false.
Proof.
  apply (request_with_retry_returns_good_status Scripted.session_request (lit "GET")
           URL_QUERY_COMPANY MAX_RETRIES HEADERS [] flaky_world []
           {| status_code := 200; json := Some (PDict [(lit "result", PList [])]) |}
           (request_with_retry Scripted.session_request (lit "GET")
              URL_QUERY_COMPANY MAX_RETRIES HEADERS [] flaky_world).2).
  vm_compute. reflexivity.
Defined.

(** ** The fetcher, case by case *)

Section FetchMore.
Context {W : Type}.
Variable session_request : request → W → (exn + response) * W.

(** X5. What the fetcher does with the outcome of the request: an
    exception of the request is passed on as it is; a body that is not JSON
    raises [JSONDecodeError]; a body that is not a dict raises
    [AttributeError]; a "result" that is [null], a boolean or a number has no
    length and raises [TypeError]; a "result" that is a list, a string or a
    dict is returned after its length is printed, and a missing "result"
    gives the empty list.  Each error leaves the trace of the request as it
    was: no count is printed. *)
Theorem fetch_reports_for_year_cases (code : pystr) (year : Z) (w : W) :
  fetch_reports_for_year session_request code year w =
  match request_with_retry session_request (lit "GET") URL_QUERY_COMPANY MAX_RETRIES
          HEADERS (fetch_params code year) w with
  | (Raise e, w1, t1) => (Raise e, w1, t1)
  | (Ret None, w1, t1) => (Raise AttributeError, w1, t1)
  | (Ret (Some resp), w1, t1) =>
      match json resp with
      | None => (Raise JSONDecodeError, w1, t1)
      | Some (PDict d) =>
          match default (PList []) (lookup_last (lit "result") d) with
          | PStr s =>
              (Ret (PStr s), w1,
               t1 ++ [EvPrint (InfoFetched code year (Z.of_nat (length s)))])
          | PList l =>
              (Ret (PList l), w1,
               t1 ++ [EvPrint (InfoFetched code year (Z.of_nat (length l)))])
          | PDict d' =>
              (Ret (PDict d'), w1,
               t1 ++ [EvPrint (InfoFetched code year
                                 (Z.of_nat (length (dict_keys d' []))))])
          | _ => (Raise TypeError, w1, t1)
          end
      | Some _ => (Raise AttributeError, w1, t1)
      end
  end.
Proof.
  unfold fetch_reports_for_year. rewrite bind_run.
  destruct (request_with_retry _ _ _ _ _ _ w) as [[[resp|e] w1] t1]; [|reflexivity].
  destruct resp as [resp|]; cbn [resp_json].
  - destruct (json resp) as [data|].
    + rewrite bind_run. cbn [mret M_ret].
      destruct data as [| | | | | |d];
        try (rewrite bind_run; cbn [py_get raise]; rewrite app_nil_r; reflexivity).
      rewrite bind_run. cbn [py_get mret M_ret].
      destruct (default (PList []) (lookup_last (lit "result") d));
        rewrite bind_run; cbn [py_len raise mret M_ret];
        rewrite ?app_nil_r; reflexivity.
    + rewrite bind_run. cbn [raise]. rewrite app_nil_r. reflexivity.
  - rewrite bind_run. cbn [raise]. rewrite app_nil_r. reflexivity.
Qed.

Lemma py_len_pure obj : pure (W:=W) (py_len obj).
Proof. destruct obj; try apply pure_raise; apply pure_ret. Qed.

Lemma py_iter_pure obj : pure (W:=W) (py_iter obj).
Proof. destruct obj; try apply pure_raise; apply pure_ret. Qed.

Lemma fetch_reports_for_year_at_most code year :
  at_most (fetch_reports_for_year session_request code year) (Z.to_nat MAX_RETRIES).
Proof.
  unfold fetch_reports_for_year, request_with_retry.
  replace (Z.to_nat MAX_RETRIES) with (length (range 1 (MAX_RETRIES + 1)) + 0)%nat
    by (rewrite range_length; reflexivity).
  apply at_most_bind; [apply retry_loop_at_most|]. intros resp.
  change 0%nat with (0 + (0 + (0 + (0 + 0))))%nat.
  apply at_most_bind.
  { apply at_most_pure. destruct resp as [r|]; simpl; [|apply pure_raise].
    destruct (json r); [apply pure_ret | apply pure_raise]. }
  intros data. apply at_most_bind; [apply at_most_pure, py_get_pure|].
  intros results. apply at_most_bind; [apply at_most_pure, py_len_pure|].
  intros n. apply at_most_bind; [apply at_most_emit; simpl; lia|].
  intros _. apply at_most_ret.
Qed.

Lemma handle_item_at_most sc code item st :
  at_most (W:=W) (handle_item sc code item st) 0.
Proof.
  destruct st as [summary_rows seen_urls]. unfold handle_item.
  change 0%nat with (0 + (0 + (0 + 0)))%nat.
  apply at_most_bind; [apply at_most_pure, read_field_pure|]. intros title.
  apply at_most_bind; [apply at_most_pure, read_field_pure|]. intros date.
  apply at_most_bind; [apply at_most_pure, read_field_pure|]. intros relative_url.
  destruct (negb _); [apply at_most_ret|].
  destruct (decide _).
  - change 0%nat with (0 + 0)%nat.
    apply at_most_bind; [apply at_most_emit; simpl; lia|]. intros _. apply at_most_ret.
  - change 0%nat with (0 + (0 + 0))%nat.
    apply at_most_bind; [apply at_most_emit; simpl; lia|]. intros _.
    apply at_most_bind; [apply at_most_emit; simpl; lia|]. intros _. apply at_most_ret.
Qed.

Lemma handle_code_at_most sc year total idx_code st :
  at_most (handle_code session_request sc year total idx_code st)
    (Z.to_nat MAX_RETRIES).
Proof.
  destruct idx_code as [idx code]. unfold handle_code.
  change (Z.to_nat MAX_RETRIES) with (0 + (Z.to_nat MAX_RETRIES + 0))%nat.
  apply at_most_bind; [apply at_most_emit; simpl; lia|]. intros _.
  apply at_most_bind; [apply at_most_try, fetch_reports_for_year_at_most|].
  intros [e|reports].
  - change 0%nat with (0 + 0)%nat.
    apply at_most_bind; [apply at_most_emit; simpl; lia|]. intros _. apply at_most_ret.
  - change 0%nat with (0 + 0)%nat.
    apply at_most_bind; [apply at_most_pure, py_iter_pure|]. intros items.
    eapply at_most_weaken; [apply at_most_for; intros; apply handle_item_at_most | lia].
Qed.

Lemma write_summary_at_most sc year rows : at_most (W:=W) (write_summary sc year rows) 0.
Proof.
  destruct rows; simpl; [apply at_most_emit; simpl; lia|].
  change 0%nat with (0 + 0)%nat.
  apply at_most_bind; [apply at_most_emit; simpl; lia|]. intros _.
  apply at_most_emit; simpl; lia.
Qed.

Lemma run_years_at_most sc codes years :
  at_most (run_years session_request sc codes years)
    (length years * (length codes * Z.to_nat MAX_RETRIES)).
Proof.
  unfold run_years. apply at_most_for. intros year []. unfold handle_year.
  replace (length codes * Z.to_nat MAX_RETRIES)%nat
    with (0 + (length (enumerate codes 1) * Z.to_nat MAX_RETRIES + 0))%nat
    by (rewrite enumerate_length; lia).
  apply at_most_bind; [apply at_most_emit; simpl; lia|]. intros _.
  apply at_most_bind.
  - apply at_most_for. intros x s. apply handle_code_at_most.
  - intros st. apply write_summary_at_most.
Qed.

(** X6. However the session answers and however the run ends, a run over
    [years] and [codes] issues at most [MAX_RETRIES] requests per code and
    year. *)
Theorem run_years_request_bound (sc : script) (codes : list pystr) (years : list Z)
    (w : W) :
  (requests (run_years session_request sc codes years w).2
   ≤ length years * (length codes * Z.to_nat MAX_RETRIES))%nat.
Proof. apply run_years_at_most. Qed.

End FetchMore.

(** ** What the rows are made of *)

Lemma hoare_for_elem {W A S} (l : list A) (body : A → S → M W S)
    (P : event → Prop) (Inv : S → Prop) :
  (∀ x s, x ∈ l → Inv s → hoare (body x s) P Inv) →
  ∀ s, Inv s → hoare (for_ l body s) P Inv.
Proof.
  induction l as [|x l IH]; intros Hbody s Hs; simpl.
  - apply hoare_ret. exact Hs.
  - eapply hoare_bind; [apply Hbody; [left | exact Hs]|].
    apply IH. intros y s' Hy. apply Hbody. right. exact Hy.
Qed.

Section RowsMore.
Context {W : Type}.
Variable session_request : request → W → (exn + response) * W.

Lemma handle_item_rows sc codes code item st :
  code ∈ codes → Forall (row_from codes) st.1 →
  hoare (W:=W) (handle_item sc code item st) not_a_write
    (λ st', Forall (row_from codes) st'.1).
Proof.
  intros Hcode Hst. destruct st as [summary_rows seen_urls]. unfold handle_item.
  eapply hoare_bind; [apply read_field_returns|]. intros title0 [Htitle _].
  eapply hoare_bind; [apply read_field_returns|]. intros date0 [Hdate _].
  eapply hoare_bind; [apply read_field_returns|]. intros relative_url [Hrel _].
  destruct relative_url as [|c relative_url]; [apply hoare_ret; exact Hst|].
  set (rel := c :: relative_url) in *. cbn [truthy length Nat.eqb negb].
  destruct (decide (pdf_url rel ∈ seen_urls)).
  - eapply hoare_bind; [apply (hoare_emit _ _ (λ _, True)); exact I|].
    intros _ _. apply hoare_ret. exact Hst.
  - eapply hoare_bind; [apply (hoare_emit _ _ (λ _, True)); exact I|]. intros _ _.
    eapply hoare_bind; [apply (hoare_emit _ _ (λ _, True)); exact I|]. intros _ _.
    apply hoare_ret. cbn [fst]. apply Forall_app. split; [exact Hst|].
    constructor; [|constructor]. split; [exact Hcode|]. split; [exact Htitle|].
    split; [exact Hdate|]. exists rel. split; [discriminate|]. split; [exact Hrel | reflexivity].
Qed.

Lemma handle_code_rows sc codes year total idx code st :
  code ∈ codes → Forall (row_from codes) st.1 →
  hoare (handle_code session_request sc year total (idx, code) st) not_a_write
    (λ st', Forall (row_from codes) st'.1).
Proof.
  intros Hcode Hst. unfold handle_code.
  eapply hoare_bind; [apply (hoare_emit _ _ (λ _, True)); exact I|]. intros _ _.
  eapply hoare_bind; [apply hoare_try, fetch_reports_for_year_no_write|].
  intros [e|reports] _.
  - eapply hoare_bind; [apply (hoare_emit _ _ (λ _, True)); exact I|].
    intros _ _. apply hoare_ret. exact Hst.
  - eapply hoare_bind with (Q1 := λ _, True).
    { destruct reports; simpl; try apply hoare_raise; apply hoare_ret; exact I. }
    intros items _.
    apply (hoare_for items (handle_item sc code) not_a_write
             (λ st', Forall (row_from codes) st'.1)); [|exact Hst].
    intros item s Hs. apply handle_item_rows; assumption.
Qed.

(** X7. Every row of every table that a run over [codes] writes carries one
    of the codes, a trimmed title and a trimmed date, and a URL that is the
    resolution of a trimmed, non-empty fragment. *)
Theorem rows_come_from_codes (sc : script) (codes : list pystr) (years : list Z)
    (w : W) :
  Forall (tables (λ _ rows, Forall (row_from codes) rows))
         (run_years session_request sc codes years w).2.
Proof.
  unfold run_years.
  apply (hoare_for years (λ year _, handle_year session_request sc codes year)
           (tables (λ _ rows, Forall (row_from codes) rows)) (λ _, True)); [|exact I].
  intros year [] _. unfold handle_year.
  eapply hoare_bind; [apply (hoare_emit _ _ (λ _, True)); exact I|]. intros _ _.
  eapply hoare_bind.
  - eapply hoare_weaken with (Q' := λ st', Forall (row_from codes) st'.1).
    + apply (hoare_for_elem (enumerate codes 1)
               (handle_code session_request sc year (Z.of_nat (length codes)))
               not_a_write (λ st', Forall (row_from codes) st'.1)); [|constructor].
      intros [idx code] s Hx Hs. apply handle_code_rows; [|exact Hs].
      eapply enumerate_elem. exact Hx.
    + intros ev. apply not_a_write_tables.
    + auto.
  - intros [rows seen] Hrows. destruct rows as [|r rows]; simpl.
    + apply hoare_emit; exact I.
    + eapply hoare_bind with (Q1 := λ _, True).
      * apply hoare_emit; [exact Hrows | exact I].
      * intros _ _. apply hoare_emit; exact I.
Qed.

End RowsMore.

(** ** Rows are only appended, and no record with a URL is lost *)

Lemma prefix_urls (rows1 rows2 : list row) u :
  rows1 `prefix_of` rows2 → u ∈ url <$> rows1 → u ∈ url <$> rows2.
Proof.
  intros [k ->] Hu. rewrite fmap_app. apply elem_of_app. left. exact Hu.
Qed.

Lemma for_app_run {W A S} (l1 l2 : list A) (body : A → S → M W S) s w s1 w1 t1 :
  for_ l1 body s w = (Ret s1, w1, t1) →
  for_ (l1 ++ l2) body s w =
  let '(r, w2, t2) := for_ l2 body s1 w1 in (r, w2, t1 ++ t2).
Proof.
  revert s w t1. induction l1 as [|x l1 IH]; intros s w t1 H1.
  - simpl in H1. injection H1 as <- <- <-. simpl.
    destruct (for_ l2 body s w) as [[r w2] t2]. reflexivity.
  - simpl in *. rewrite bind_run in *.
    destruct (body x s w) as [[[s0|e] w0] t0]; [|discriminate].
    destruct (for_ l1 body s0 w0) as [[r w2] t2] eqn:Hrest.
    injection H1 as -> -> <-.
    rewrite (IH s0 w0 t2 Hrest).
    destruct (for_ l2 body s1 w1) as [[r' w3] t3]. rewrite app_assoc. reflexivity.
Qed.

Section GrowMore.
Context {W : Type}.
Variable session_request : request → W → (exn + response) * W.

Lemma grown_refl st : seen_have_rows st → grown st st.
Proof. intros Hst. split; [exact Hst|]. split; reflexivity. Qed.

Lemma grown_trans st1 st2 st3 : grown st1 st2 → grown st2 st3 → grown st1 st3.
Proof.
  intros (_ & Hp1 & Hs1) (Hh & Hp2 & Hs2). split; [exact Hh|].
  split; [etrans; eassumption | set_solver].
Qed.

Lemma handle_item_grows sc code item st :
  seen_have_rows st →
  hoare (W:=W) (handle_item sc code item st) (λ _, True)
    (λ st', grown st st' ∧ url_in_rows item st').
Proof.
  intros Hst. destruct st as [summary_rows seen_urls]. unfold handle_item.
  eapply hoare_bind; [apply read_field_returns|]. intros title0 _.
  eapply hoare_bind; [apply read_field_returns|]. intros date0 _.
  eapply hoare_bind; [apply read_field_returns|]. intros relative_url [_ Hrel].
  destruct relative_url as [|c relative_url].
  { apply hoare_ret. split; [apply grown_refl, Hst|].
    intros d s Hd Hk Hne. rewrite <- (Hrel d s Hd Hk) in Hne. contradiction. }
  set (rel := c :: relative_url) in *. cbn [truthy length Nat.eqb negb].
  destruct (decide (pdf_url rel ∈ seen_urls)) as [Hin|Hnin].
  - eapply hoare_bind; [apply (hoare_emit _ _ (λ _, True)); exact I|].
    intros _ _. apply hoare_ret. split; [apply grown_refl, Hst|].
    intros d s Hd Hk _. rewrite <- (Hrel d s Hd Hk). apply Hst, Hin.
  - eapply hoare_bind; [apply (hoare_emit _ _ (λ _, True)); exact I|]. intros _ _.
    eapply hoare_bind; [apply (hoare_emit _ _ (λ _, True)); exact I|]. intros _ _.
    apply hoare_ret. split; [split; [|split]|].
    + intros u. cbn [fst snd]. rewrite fmap_app, elem_of_app. cbn [fmap list_fmap url].
      rewrite elem_of_union, elem_of_singleton, list_elem_of_singleton.
      intros [-> | Hu]; [right; reflexivity | left; apply Hst, Hu].
    + cbn [fst]. apply prefix_app_r. reflexivity.
    + cbn [snd]. set_solver.
    + intros d s Hd Hk _. rewrite <- (Hrel d s Hd Hk). cbn [fst].
      rewrite fmap_app, elem_of_app. right. cbn [fmap list_fmap url]. left.
Qed.

Lemma items_loop_grows sc code items :
  ∀ st, seen_have_rows st →
  hoare (W:=W) (for_ items (handle_item sc code) st) (λ _, True)
    (λ st', grown st st' ∧ ∀ item, item ∈ items → url_in_rows item st').
Proof.
  induction items as [|item items IH]; intros st Hst; simpl.
  - apply hoare_ret. split; [apply grown_refl, Hst|]. intros item H. inversion H.
  - eapply hoare_bind; [apply handle_item_grows, Hst|].
    intros st1 [Hg1 Hitem].
    eapply hoare_weaken; [apply IH; apply Hg1 | auto |].
    intros st' [Hg2 Hitems]. split; [eapply grown_trans; eassumption|].
    intros it [-> | Hit]%elem_of_cons; [|apply Hitems, Hit].
    intros d s Hd Hk Hne. eapply prefix_urls; [apply Hg2|]. eapply Hitem; eassumption.
Qed.

Lemma handle_code_grows sc year total idx_code st :
  seen_have_rows st →
  hoare (handle_code session_request sc year total idx_code st) (λ _, True)
    (λ st', grown st st').
Proof.
  intros Hst. destruct idx_code as [idx code]. unfold handle_code.
  eapply hoare_bind; [apply (hoare_emit _ _ (λ _, True)); exact I|]. intros _ _.
  eapply hoare_bind with (Q1 := λ _, True).
  { intros w. split; [apply Forall_forall; intros; exact I|].
    unfold try_. destruct (fetch_reports_for_year _ _ _ w) as [[[?|?] ?] ?]; exact I. }
  intros [e|reports] _.
  - eapply hoare_bind; [apply (hoare_emit _ _ (λ _, True)); exact I|].
    intros _ _. apply hoare_ret. apply grown_refl, Hst.
  - eapply hoare_bind with (Q1 := λ _, True).
    { destruct reports; simpl; try apply hoare_raise; apply hoare_ret; exact I. }
    intros items _. eapply hoare_weaken; [apply items_loop_grows, Hst | auto |].
    intros st' [Hg _]. exact Hg.
Qed.

Lemma codes_loop_grows sc year total l :
  ∀ st, seen_have_rows st →
  hoare (for_ l (handle_code session_request sc year total) st) (λ _, True)
    (λ st', grown st st').
Proof.
  induction l as [|x l IH]; intros st Hst; simpl.
  - apply hoare_ret. apply grown_refl, Hst.
  - eapply hoare_bind; [apply handle_code_grows, Hst|]. intros st1 Hg1.
    eapply hoare_weaken; [apply IH; apply Hg1 | auto |].
    intros st' Hg2. eapply grown_trans; eassumption.
Qed.

(** The result of a computation that ended in a value satisfies what
    [hoare] promised. *)
Lemma hoare_run {A} (m : M W A) P (Q : A → Prop) w a w1 t :
  hoare m P Q → m w = (Ret a, w1, t) → Q a.
Proof. intros Hm Hrun. destruct (Hm w) as [_ H]. rewrite Hrun in H. exact H. Qed.

Lemma seen_have_rows_init : seen_have_rows ([], ∅).
Proof. intros u Hu. set_solver. Qed.

Lemma handle_code_fetch_returns sc year total idx code st w reports w1 t1 :
  fetch_reports_for_year session_request code year w = (Ret reports, w1, t1) →
  handle_code session_request sc year total (idx, code) st w =
  (let '(r, w2, t2) :=
     (items ← py_iter reports; for_ items (handle_item sc code) st) w1 in
   (r, w2, code_banner sc total idx code :: t1 ++ t2)).
Proof.
  intros Hfetch. unfold handle_code. rewrite bind_run. cbn [print emit].
  rewrite bind_run. unfold try_ at 1. rewrite Hfetch.
  destruct ((items ← py_iter reports; for_ items (handle_item sc code) st) w1)
    as [[r w2] t2]. reflexivity.
Qed.

(** X8. Within a year, the rows and the set that a prefix of the codes has
    produced are kept by the codes that follow: the rows stay where they
    are, as the first rows, and the set only gains members; and when the
    loop over the codes ends, the set holds exactly the URLs of the rows. *)
Theorem rows_only_grow (sc : script) (year total : Z) (l1 l2 : list (Z * pystr))
    (w w1 w' : W) (st1 st' : list row * gset pystr) (t1 t' : list event) :
  for_ l1 (handle_code session_request sc year total) ([], ∅) w = (Ret st1, w1, t1) →
  for_ (l1 ++ l2) (handle_code session_request sc year total) ([], ∅) w
    = (Ret st', w', t') →
  st1.1 `prefix_of` st'.1 ∧ st1.2 ⊆ st'.2 ∧
  (∀ u, u ∈ st'.2 ↔ u ∈ url <$> st'.1).
Proof.
  intros H1 Hall.
  pose proof (hoare_run _ _ _ _ _ _ _
                (codes_loop_grows sc year total l1 _ seen_have_rows_init) H1) as Hg1.
  rewrite (for_app_run _ _ _ _ _ _ _ _ H1) in Hall.
  destruct (for_ l2 (handle_code session_request sc year total) st1 w1)
    as [[r w2] t2] eqn:H2.
  injection Hall as -> -> _.
  pose proof (hoare_run _ _ _ _ _ _ _
                (codes_loop_grows sc year total l2 st1 (proj1 Hg1)) H2)
    as (Hh & Hp & Hs).
  split; [exact Hp|]. split; [exact Hs|].
  intros u. split; [apply Hh|].
  assert (Hinv : year_inv st').
  { eapply hoare_run; [|exact H2].
    apply (hoare_for l2 (handle_code session_request sc year total)
             not_a_write year_inv).
    - intros x s Hs'. apply handle_code_inv. exact Hs'.
    - eapply hoare_run; [|exact H1].
      apply (hoare_for l1 (handle_code session_request sc year total)
               not_a_write year_inv); [|apply year_inv_init].
      intros x s Hs'. apply handle_code_inv. exact Hs'. }
  apply Hinv.
Qed.

Lemma handle_year_records (sc : script) (codes : list pystr) (year : Z)
    (l1 l2 : list (Z * pystr)) (idx : Z) (code : pystr) (w w1 w2 : W)
    (st1 : list row * gset pystr) (t1 t2 : list event) (items : list pyval)
    (d : list (pystr * pyval)) (s : pystr) :
  enumerate codes 1 = l1 ++ (idx, code) :: l2 →
  for_ l1 (handle_code session_request sc year (Z.of_nat (length codes))) ([], ∅) w
    = (Ret st1, w1, t1) →
  fetch_reports_for_year session_request code year w1 = (Ret (PList items), w2, t2) →
  (handle_year session_request sc codes year w).1.1 = Ret tt →
  PDict d ∈ items → lookup_last (lit "URL") d = Some (PStr s) → strip s ≠ [] →
  ∃ rows,
    written (handle_year session_request sc codes year w).2
      = [(csv_name sc year, rows)] ∧
    pdf_url (strip s) ∈ url <$> rows.
Proof.
  intros Hsplit H1 Hfetch Hend Hitem Hurl Hne.
  set (body := handle_code session_request sc year (Z.of_nat (length codes))) in *.
  pose proof (hoare_run _ _ _ _ _ _ _
                (codes_loop_grows sc year _ l1 _ seen_have_rows_init) H1)
    as (Hh1 & _ & _).
  pose proof (codes_loop_no_write session_request sc year (Z.of_nat (length codes))
                (enumerate codes 1) w) as Hnw.
  unfold handle_year in *. rewrite bind_run in *. cbn [print emit] in *.
  rewrite bind_run in *. fold body in Hnw |- *. fold body in Hend.
  destruct (for_ (enumerate codes 1) body ([], ∅) w) as [[[st'|e] w'] t'] eqn:Hloop;
    [|discriminate Hend].
  clear Hend. simpl in Hnw.
  rewrite Hsplit, (for_app_run _ _ _ _ _ _ _ _ H1) in Hloop.
  cbn [for_] in Hloop. rewrite bind_run in Hloop.
  destruct (body (idx, code) st1 w1) as [[[st2|e] w3] t3] eqn:Hbody; [|discriminate Hloop].
  destruct (for_ l2 body st2 w3) as [[r w4] t4] eqn:H2.
  injection Hloop as -> _ _.
  unfold body in Hbody. rewrite (handle_code_fetch_returns _ _ _ _ _ _ _ _ _ _ Hfetch) in Hbody.
  rewrite bind_run in Hbody. cbn [py_iter mret M_ret] in Hbody.
  destruct (for_ items (handle_item sc code) st1 w2) as [[r5 w5] t5] eqn:Hitems.
  injection Hbody as -> _ _.
  pose proof (hoare_run _ _ _ _ _ _ _ (items_loop_grows sc code items st1 Hh1) Hitems)
    as [(Hh2 & _ & _) Hin].
  pose proof (hoare_run _ _ _ _ _ _ _
                (codes_loop_grows sc year _ l2 st2 Hh2) H2) as (_ & Hp & _).
  assert (Hu : pdf_url (strip s) ∈ url <$> st'.1).
  { eapply prefix_urls; [exact Hp|]. eapply (Hin _ Hitem); [reflexivity | exact Hurl | exact Hne]. }
  exists st'.1. split; [|exact Hu].
  destruct st' as [[|r rows] seen]; [inversion Hu|].
  cbn [fst write_summary]. rewrite bind_run. cbn [emit print].
  cbn [snd]. rewrite !written_app, (written_nil t' Hnw). reflexivity.
Qed.

(** X9. No record with a URL is lost: when a year ends normally, every
    record that a fetch of that year returned in a list, with a string under
    "URL" that is not blank, has its resolved URL in the table written for
    the year (a table is then written). *)
Theorem records_reach_the_table (sc : script) (codes : list pystr) (year : Z)
    (l1 l2 : list (Z * pystr)) (idx : Z) (code : pystr) (w w1 w2 : W)
    (st1 : list row * gset pystr) (t1 t2 : list event) (items : list pyval)
    (d : list (pystr * pyval)) (s : pystr) :
  enumerate codes 1 = l1 ++ (idx, code) :: l2 →
  for_ l1 (handle_code session_request sc year (Z.of_nat (length codes))) ([], ∅) w
    = (Ret st1, w1, t1) →
  fetch_reports_for_year session_request code year w1 = (Ret (PList items), w2, t2) →
  (handle_year session_request sc codes year w).1.1 = Ret tt →
  PDict d ∈ items → lookup_last (lit "URL") d = Some (PStr s) → strip s ≠ [] →
  ∃ rows,
    written (handle_year session_request sc codes year w).2
      = [(csv_name sc year, rows)] ∧
    pdf_url (strip s) ∈ url <$> rows.
Proof. apply handle_year_records. Qed.

End GrowMore.

Lemma rows_only_grow_witness :
  [ {| code := lit "600000"; title := lit "A"; date := lit "2022-03-30";
       url := lit "https://static.sse.com.cn/a.pdf" |} ]
  `prefix_of`
  [ {| code := lit "600000"; title := lit "A"; date := lit "2022-03-30";
       url := lit "https://static.sse.com.cn/a.pdf" |};
    {| code := lit "600519"; title := lit "B"; date := lit "2022-03-31";
       url := lit "https://static.sse.com.cn/b.pdf" |} ].
Proof.
  pose (w := [ Scripted.ok [Scripted.record "A" "2022-03-30" "/a.pdf"];
               Scripted.ok [Scripted.record "A" "2022-03-30" "/a.pdf";
                            Scripted.record "B" "2022-03-31" "/b.pdf"] ]).
  pose (l1 := [(1, lit "600000")]). pose (l2 := [(2, lit "600519")]).
  pose (ra := {| code := lit "600000"; title := lit "A"; date := lit "2022-03-30";
                 url := lit "https://static.sse.com.cn/a.pdf" |}).
  pose (rb := {| code := lit "600519"; title := lit "B"; date := lit "2022-03-31";
                 url := lit "https://static.sse.com.cn/b.pdf" |}).
  apply (rows_only_grow Scripted.session_request Mainboard 2022 2 l1 l2 w
           [Scripted.ok [Scripted.record "A" "2022-03-30" "/a.pdf";
                         Scripted.record "B" "2022-03-31" "/b.pdf"]]
           []
           ([ra], {[ url ra ]} ∪ ∅)
           ([ra; rb], {[ url rb ]} ∪ ({[ url ra ]} ∪ ∅))
           (for_ l1 (handle_code Scripted.session_request Mainboard 2022 2) ([], ∅) w).2
           (for_ (l1 ++ l2) (handle_code Scripted.session_request Mainboard 2022 2)
              ([], ∅) w).2).
  - vm_compute. reflexivity.
  - vm_compute. reflexivity.
Defined.

Lemma records_reach_the_table_witness :
  ∃ rows,
    written (handle_year Scripted.session_request Links [lit "600000"; lit "600519"] 2022
               [ Scripted.ok [Scripted.record "A" "2022-03-30" "/a.pdf"];
                 Scripted.ok [Scripted.record "B" "2022-03-31" " /b.pdf "] ]).2
      = [(csv_name Links 2022, rows)] ∧
    pdf_url (strip (lit " /b.pdf ")) ∈ url <$> rows.
Proof.
  pose (w := [ Scripted.ok [Scripted.record "A" "2022-03-30" "/a.pdf"];
               Scripted.ok [Scripted.record "B" "2022-03-31" " /b.pdf "] ]).
  pose (ra := {| code := lit "600000"; title := lit "A"; date := lit "2022-03-30";
                 url := lit "https://static.sse.com.cn/a.pdf" |}).
  apply (records_reach_the_table Scripted.session_request Links
           [lit "600000"; lit "600519"] 2022
           [(1, lit "600000")] [] 2 (lit "600519") w
           [Scripted.ok [Scripted.record "B" "2022-03-31" " /b.pdf "]] []
           ([ra], {[ url ra ]} ∪ ∅)
           (for_ [(1, lit "600000")]
              (handle_code Scripted.session_request Links 2022 2) ([], ∅) w).2
           (fetch_reports_for_year Scripted.session_request (lit "600519") 2022
              [Scripted.ok [Scripted.record "B" "2022-03-31" " /b.pdf "]]).2
           [Scripted.record "B" "2022-03-31" " /b.pdf "]
           [(lit "TITLE", PStr (lit "B")); (lit "SSEDATE", PStr (lit "2022-03-31"));
            (lit "URL", PStr (lit " /b.pdf "))]
           (lit " /b.pdf ")).
  - reflexivity.
  - vm_compute. reflexivity.
  - vm_compute. reflexivity.
  - vm_compute. reflexivity.
  - left.
  - vm_compute. reflexivity.
  - vm_compute. discriminate.
Defined.

(** ** What a year writes, and when a run stops *)

Section YearsMore.
Context {W : Type}.
Variable session_request : request → W → (exn + response) * W.

Lemma handle_year_outcome sc codes year w :
  written (handle_year session_request sc codes year w).2 = [] ∨
  ((handle_year session_request sc codes year w).1.1 = Ret tt ∧
   ∃ rows, rows ≠ [] ∧
     written (handle_year session_request sc codes year w).2
       = [(csv_name sc year, rows)]).
Proof.
  pose proof (codes_loop_no_write session_request sc year (Z.of_nat (length codes))
                (enumerate codes 1) w) as Hnw.
  unfold handle_year. rewrite bind_run. cbn [print emit]. rewrite bind_run.
  destruct (for_ (enumerate codes 1) _ ([], ∅) w) as [[[st|e] w1] t1]; simpl in Hnw.
  - destruct st as [[|r rows] seen]; cbn [fst write_summary].
    + left. cbn [print emit snd]. rewrite !written_app, (written_nil t1 Hnw). reflexivity.
    + right. rewrite bind_run. cbn [print emit]. split; [reflexivity|].
      exists (r :: rows). split; [discriminate|].
      cbn [snd]. rewrite !written_app, (written_nil t1 Hnw). reflexivity.
  - left. cbn [snd]. rewrite written_app, (written_nil t1 Hnw). reflexivity.
Qed.

Lemma failing_codes_loop sc codes year w e w1 t1 :
  for_ (enumerate codes 1)
    (handle_code session_request sc year (Z.of_nat (length codes))) ([], ∅) w
  = (Raise e, w1, t1) →
  handle_year session_request sc codes year w
    = (Raise e, w1, EvPrint (YearBanner year) :: t1) ∧
  written (EvPrint (YearBanner year) :: t1) = [].
Proof.
  intros Hloop. split.
  - unfold handle_year. rewrite bind_run. cbn [print emit].
    rewrite bind_run, Hloop. reflexivity.
  - pose proof (codes_loop_no_write session_request sc year (Z.of_nat (length codes))
                  (enumerate codes 1) w) as Hnw.
    rewrite Hloop in Hnw. simpl in Hnw. simpl. apply written_nil, Hnw.
Qed.

(** X10. When the loop over the codes of a year ends in an exception (a
    record that cannot be read: the errors of a fetch are caught), the year
    ends in that exception before the summary is reached: after the banner
    there is only what the loop did, no table is written for the year and
    the rows accumulated so far are dropped. *)
Theorem failing_records_lose_the_year (sc : script) (codes : list pystr) (year : Z)
    (w w1 : W) (e : exn) (t1 : list event) :
  for_ (enumerate codes 1)
    (handle_code session_request sc year (Z.of_nat (length codes))) ([], ∅) w
  = (Raise e, w1, t1) →
  handle_year session_request sc codes year w
    = (Raise e, w1, EvPrint (YearBanner year) :: t1) ∧
  written (EvPrint (YearBanner year) :: t1) = [].
Proof. apply failing_codes_loop. Qed.

(** X11. An exception raised while the records of a year are processed
    stops the run there: the run ends in that exception, the years after it
    are not processed, nothing is written for the year, and the tables
    written are those of the years that ended before it. *)
Theorem run_stops_at_failing_year (sc : script) (codes : list pystr)
    (years1 years2 : list Z) (year : Z) (w w1 w2 : W) (t1 t2 : list event) (e : exn) :
  run_years session_request sc codes years1 w = (Ret tt, w1, t1) →
  for_ (enumerate codes 1)
    (handle_code session_request sc year (Z.of_nat (length codes))) ([], ∅) w1
  = (Raise e, w2, t2) →
  run_years session_request sc codes (years1 ++ year :: years2) w
    = (Raise e, w2, t1 ++ EvPrint (YearBanner year) :: t2) ∧
  written (t1 ++ EvPrint (YearBanner year) :: t2) = written t1.
Proof.
  intros H1 Hloop.
  destruct (failing_codes_loop sc codes year w1 e w2 t2 Hloop) as [Hyear Hw].
  split.
  - unfold run_years in *. rewrite (for_app_run _ _ _ _ _ _ _ _ H1).
    cbn [for_]. rewrite bind_run, Hyear. reflexivity.
  - rewrite written_app, Hw, app_nil_r. reflexivity.
Qed.

(** X12. A run over no codes makes no request and writes nothing: for each
    year it prints the banner and the warning, and it ends normally. *)
Theorem run_years_without_codes (sc : script) (years : list Z) (w : W) :
  run_years session_request sc [] years w =
  (Ret tt, w,
   flat_map (λ year, [EvPrint (YearBanner year); EvPrint (WarnNoRecords year)]) years).
Proof.
  unfold run_years. induction years as [|year years IH]; [reflexivity|].
  cbn [for_ flat_map]. rewrite bind_run.
  change (handle_year session_request sc [] year w)
    with (Ret tt, w, [EvPrint (YearBanner year); EvPrint (WarnNoRecords year)]).
  lazy beta iota. rewrite IH. reflexivity.
Qed.

End YearsMore.

Lemma failing_records_lose_the_year_witness :
  written
    (handle_year Scripted.session_request Links [lit "600000"; lit "600519"] 2022
       [ Scripted.ok [Scripted.record "A" "2022-03-30" "/a.pdf"];
         Scripted.ok [null_url_record] ]).2
  = [].
Proof.
  pose (w := [ Scripted.ok [Scripted.record "A" "2022-03-30" "/a.pdf"];
               Scripted.ok [null_url_record] ]).
  destruct (failing_records_lose_the_year Scripted.session_request Links
              [lit "600000"; lit "600519"] 2022 w [] AttributeError
              (for_ (enumerate [lit "600000"; lit "600519"] 1)
                 (handle_code Scripted.session_request Links 2022 2) ([], ∅) w).2)
    as [Hyear Hw].
  - vm_compute. reflexivity.
  - fold w. rewrite Hyear. exact Hw.
Defined.

Lemma run_stops_at_failing_year_witness :
  let w := [ Scripted.ok [Scripted.record "A" "2022-03-30" "/a.pdf"];
             Scripted.ok [null_url_record];
             Scripted.ok [Scripted.record "C" "2024-03-30" "/c.pdf"] ] in
  let r := run_years Scripted.session_request Links [lit "600000"] [2022; 2023; 2024] w in
  r.1 = (Raise AttributeError, [Scripted.ok [Scripted.record "C" "2024-03-30" "/c.pdf"]]) ∧
  written r.2
  = [ (lit "summary_links_2022.csv",
       [ {| code := lit "600000"; title := lit "A"; date := lit "2022-03-30";
            url := lit "https://static.sse.com.cn/a.pdf" |} ]) ].
Proof.
  intros w r.
  destruct (run_stops_at_failing_year Scripted.session_request Links [lit "600000"]
              [2022] [2024] 2023 w
              [ Scripted.ok [null_url_record];
                Scripted.ok [Scripted.record "C" "2024-03-30" "/c.pdf"] ]
              [ Scripted.ok [Scripted.record "C" "2024-03-30" "/c.pdf"] ]
              (run_years Scripted.session_request Links [lit "600000"] [2022] w).2
              (for_ (enumerate [lit "600000"] 1)
                 (handle_code Scripted.session_request Links 2023 1) ([], ∅)
                 [ Scripted.ok [null_url_record];
                   Scripted.ok [Scripted.record "C" "2024-03-30" "/c.pdf"] ]).2
              AttributeError) as [Hrun Hw].
  - vm_compute. reflexivity.
  - vm_compute. reflexivity.
  - unfold r. change [2022; 2023; 2024] with ([2022] ++ 2023 :: [2024]).
    rewrite Hrun. split; [reflexivity|]. cbn [snd]. rewrite Hw. vm_compute. reflexivity.
Defined.

(** ** The names of the files *)

Lemma lit_inj (s1 s2 : string) : lit s1 = lit s2 → s1 = s2.
Proof.
  unfold lit. intros H.
  rewrite <- (string_of_list_ascii_of_string s1), <- (string_of_list_ascii_of_string s2).
  f_equal. revert H. generalize (list_ascii_of_string s1) (list_ascii_of_string s2).
  induction l as [|a l IH]; intros [|b k] H; simpl in H; try discriminate; [reflexivity|].
  injection H as Hab Hlk. f_equal; [|apply IH, Hlk].
  rewrite <- (ascii_N_embedding a), <- (ascii_N_embedding b), Hab. reflexivity.
Qed.

Lemma to_int_proper (z : Z) :
  Z.to_int z ≠ Decimal.Pos Decimal.Nil ∧ Z.to_int z ≠ Decimal.Neg Decimal.Nil.
Proof.
  destruct z as [|p|p]; simpl; split; try discriminate;
    intros [= H]; exact (DecimalPos.Unsigned.to_uint_nonnil p H).
Qed.

(** The decimal text of an integer determines the integer. *)
Lemma str_of_int_inj (z1 z2 : Z) : str_of_int z1 = str_of_int z2 → z1 = z2.
Proof.
  unfold str_of_int. intros H%lit_inj. apply DecimalZ.to_int_inj.
  destruct (to_int_proper z1) as [Hp1 Hn1], (to_int_proper z2) as [Hp2 Hn2].
  pose proof (NilZero.isi _ Hp1 Hn1) as E1. pose proof (NilZero.isi _ Hp2 Hn2) as E2.
  rewrite H in E1. rewrite E1 in E2. injection E2 as ->. reflexivity.
Qed.

Lemma csv_name_inj (sc : script) (y1 y2 : Z) : csv_name sc y1 = csv_name sc y2 → y1 = y2.
Proof.
  destruct sc; unfold csv_name; intros H; apply str_of_int_inj;
    eapply List.app_inv_tail, List.app_inv_head; exact H.
Qed.

Section NamesMore.
Context {W : Type}.
Variable session_request : request → W → (exn + response) * W.

Lemma run_years_names sc codes years :
  ∀ w, (written (run_years session_request sc codes years w).2).*1
       `sublist_of` (csv_name sc <$> years).
Proof.
  unfold run_years. induction years as [|year years IH]; intros w.
  - simpl. constructor.
  - cbn [for_]. rewrite bind_run.
    assert (Hy : (written (handle_year session_request sc codes year w).2).*1
                 `sublist_of` [csv_name sc year]).
    { destruct (handle_year_outcome session_request sc codes year w)
        as [-> | (_ & rows & _ & ->)]; simpl; repeat constructor. }
    destruct (handle_year session_request sc codes year w) as [[[[]|e] w1] t1];
      cbn [snd] in Hy.
    + specialize (IH w1).
      destruct (for_ years _ tt w1) as [[r w2] t2]. cbn [snd] in *.
      rewrite written_app, fmap_app.
      change (csv_name sc <$> year :: years)
        with ([csv_name sc year] ++ (csv_name sc <$> years)).
      apply sublist_app; assumption.
    + cbn [snd]. change (csv_name sc <$> year :: years)
        with ([csv_name sc year] ++ (csv_name sc <$> years)).
      apply sublist_inserts_r, Hy.
Qed.

(** X13. The files a run writes are named after years of the run, in the
    order of the years and at most one per year; years that differ have
    file names that differ, so a run over distinct years writes no file
    twice. *)
Theorem files_follow_the_years (sc : script) (codes : list pystr) (years : list Z)
    (w : W) :
  (written (run_years session_request sc codes years w).2).*1
    `sublist_of` (csv_name sc <$> years) ∧
  (∀ y1 y2, csv_name sc y1 = csv_name sc y2 → y1 = y2) ∧
  (NoDup years → NoDup (written (run_years session_request sc codes years w).2).*1).
Proof.
  split; [apply run_years_names|]. split; [apply csv_name_inj|].
  intros Hnd. eapply sublist_NoDup; [|apply run_years_names].
  apply NoDup_fmap_2_strong; [|exact Hnd].
  intros y1 y2 _ _. apply csv_name_inj.
Qed.

End NamesMore.

(** The years of a range are distinct, those of [main] among them. *)
Lemma range_NoDup a b : NoDup (range a b).
Proof.
  unfold range. apply (NoDup_fmap_2_strong (λ i, a + Z.of_nat i)); [|apply NoDup_seq].
  intros i j _ _ Hij. lia.
Qed.

(** ** The codes the loader returns *)

Lemma codes_of_rows_trimmed rows :
  Forall (λ c, trimmed c ∧ c ≠ []) (codes_of_rows rows) ∧
  (length (codes_of_rows rows) ≤ length rows)%nat.
Proof.
  unfold codes_of_rows. split.
  - apply Forall_forall. intros c Hc. apply list_elem_of_In, filter_In in Hc.
    destruct Hc as [Hin Hne]. split.
    + apply list_elem_of_In, list_elem_of_fmap in Hin. destruct Hin as (r & -> & _).
      apply strip_trimmed.
    + destruct c; [discriminate Hne | discriminate].
  - etrans; [apply List.filter_length_le|]. rewrite length_fmap. reflexivity.
Qed.

(** X14. Whatever the loader returns it has read from the file: it ends
    normally only when the file could be opened, each code it returns is
    trimmed and non-empty, there are at most as many codes as rows, the
    world is as it was, and the one line printed gives the number of
    codes. *)
Theorem load_codes_from_csv_returns {W : Type}
    (read_csv : pystr → W → exn + list csv_row) (path : pystr) (w w1 : W)
    (codes : list pystr) (t : list event) :
  load_codes_from_csv read_csv path w = (Ret codes, w1, t) →
  w1 = w ∧ t = [EvPrint (InfoLoaded path (Z.of_nat (length codes)))] ∧
  Forall (λ c, trimmed c ∧ c ≠ []) codes ∧
  ∃ rows, read_csv path w = inr rows ∧ (length codes ≤ length rows)%nat.
Proof.
  unfold load_codes_from_csv. rewrite bind_run. unfold open_csv at 1.
  destruct (read_csv path w) as [e|rows] eqn:Hread; [discriminate|].
  rewrite bind_run, load_rows_run. cbn [app mret M_ret]. rewrite bind_run.
  cbn [print emit mret M_ret app]. intros [= <- <- <-].
  destruct (codes_of_rows_trimmed rows) as [Htr Hlen].
  split; [reflexivity|]. split; [reflexivity|]. split; [exact Htr|].
  exists rows. split; [reflexivity | exact Hlen].
Qed.

Lemma load_codes_from_csv_returns_witness :
  Forall (λ c, trimmed c ∧ c ≠ [])
    [lit "600000"; lit "600000"; lit "600004"; lit "600006"].
Proof.
  apply (load_codes_from_csv_returns (Scripted.read_csv (Some sample_rows)) CODES_CSV
           [] [] [lit "600000"; lit "600000"; lit "600004"; lit "600006"]
           [EvPrint (InfoLoaded CODES_CSV 4)]).
  vm_compute. reflexivity.
Defined.

(** ** [main] as a whole *)

Section MainMore.
Context {W : Type}.
Variable session_request : request → W → (exn + response) * W.
Variable read_csv : pystr → W → exn + list csv_row.

(** X15. When the codes file cannot be opened, the Mainboard script ends
    in the exception of the open before it has printed anything or issued
    any request. *)
Theorem main_stops_without_codes_file (w : W) (e : exn) :
  read_csv CODES_CSV w = inl e →
  main session_request read_csv Mainboard w = (Raise e, w, []).
Proof.
  intros Hread. unfold main, load_codes_from_csv. rewrite !bind_run.
  unfold open_csv at 1. rewrite Hread. reflexivity.
Qed.

(** X16. However the session answers, [main] issues at most
    [MAX_RETRIES] requests per code for each of its two years: 18 in the
    Links script, and 6 per row of the codes file in the Mainboard script
    (none when the file cannot be read). *)
Theorem main_request_bound (sc : script) (w : W) :
  (requests (main session_request read_csv sc w).2
   ≤ 2 * (match sc with
          | Links => 3
          | Mainboard => match read_csv CODES_CSV w with
                         | inr rows => length rows
                         | inl _ => 0
                         end
          end * 3))%nat.
Proof.
  assert (Hrun : ∀ codes w0,
            (requests ((run_years session_request sc codes
                          (range START_YEAR (END_YEAR + 1));; print AllDone) w0).2
             ≤ 2 * (length codes * 3))%nat).
  { intros codes w0.
    pose proof (at_most_bind _ (λ _, print AllDone) _ 0
                  (run_years_at_most session_request sc codes
                     (range START_YEAR (END_YEAR + 1)))
                  (λ _, at_most_emit (W:=W) (EvPrint AllDone) 0 (le_n 0)) w0) as H.
    rewrite range_length in H. change (Z.to_nat (END_YEAR + 1 - START_YEAR)) with 2%nat in H.
    change (Z.to_nat MAX_RETRIES) with 3%nat in H. lia. }
  unfold main. rewrite bind_run. destruct sc.
  - cbn [mret M_ret]. specialize (Hrun CODES w).
    destruct ((run_years _ _ _ _;; print AllDone) w) as [[r w2] t2].
    cbn [snd app] in *. exact Hrun.
  - unfold load_codes_from_csv. rewrite bind_run. unfold open_csv at 1.
    destruct (read_csv CODES_CSV w) as [e|rows]; [simpl; lia|].
    rewrite bind_run, load_rows_run. cbn [app mret M_ret]. rewrite bind_run.
    cbn [print emit mret M_ret app].
    specialize (Hrun (codes_of_rows rows) w).
    destruct ((run_years _ _ _ _;; print AllDone) w) as [[r w2] t2].
    cbn [snd requests] in *.
    pose proof (proj2 (codes_of_rows_trimmed rows)). lia.
Qed.

End MainMore.

Lemma main_stops_without_codes_file_witness :
  main Scripted.session_request (Scripted.read_csv None) Mainboard empty_world
  = (Raise (OSError (lit "No such file or directory")), empty_world, []).
Proof.
  apply (main_stops_without_codes_file Scripted.session_request (Scripted.read_csv None)).
  reflexivity.
Defined.

(** ** A well-formed record *)



(** ** The tables of a year, and the set that starts empty *)

Section YearSet.
Context {W : Type}.
Variable session_request : request → W → (exn + response) * W.

(** After any years that ended normally, the next year starts its loop over
    the codes with no rows and the empty set. *)
Lemma run_years_next_year sc codes years1 year years2 w w1 t1 :
  run_years session_request sc codes years1 w = (Ret tt, w1, t1) →
  run_years session_request sc codes (years1 ++ year :: years2) w =
  (let '(r, w2, t2) :=
     (st ← for_ (enumerate codes 1)
             (handle_code session_request sc year (Z.of_nat (length codes))) ([], ∅);
      write_summary sc year st.1;;
      run_years session_request sc codes years2) w1 in
   (r, w2, t1 ++ EvPrint (YearBanner year) :: t2)).
Proof.
  intros H1. unfold run_years in *. rewrite (for_app_run _ _ _ _ _ _ _ _ H1).
  cbn [for_]. unfold handle_year. rewrite !bind_run. cbn [print emit].
  rewrite !bind_run.
  destruct (for_ (enumerate codes 1) _ ([], ∅) w1) as [[[st|e] w2] t2]; [|reflexivity].
  rewrite bind_run.
  destruct (write_summary sc year st.1 w2) as [[[[]|e] w3] t3]; [|reflexivity].
  destruct (for_ years2 _ tt w3) as [[r w4] t4].
  cbn [app]. rewrite <- !app_assoc. reflexivity.
Qed.

(** The URL of a record fetched in a year is in the table of that year,
    whatever the years before have written. *)
Lemma run_years_year_records sc codes years1 year l1 idx code l2
    w w0 t0 st1 w1 t1 items w2 t2 d s :
  run_years session_request sc codes years1 w = (Ret tt, w0, t0) →
  enumerate codes 1 = l1 ++ (idx, code) :: l2 →
  for_ l1 (handle_code session_request sc year (Z.of_nat (length codes))) ([], ∅) w0
    = (Ret st1, w1, t1) →
  fetch_reports_for_year session_request code year w1 = (Ret (PList items), w2, t2) →
  (handle_year session_request sc codes year w0).1.1 = Ret tt →
  PDict d ∈ items → lookup_last (lit "URL") d = Some (PStr s) → strip s ≠ [] →
  ∃ rows,
    written (run_years session_request sc codes (years1 ++ [year]) w).2
      = written t0 ++ [(csv_name sc year, rows)] ∧
    pdf_url (strip s) ∈ url <$> rows.
Proof.
  intros H0 Hsplit H1 Hfetch Hend Hitem Hurl Hne.
  destruct (handle_year_records session_request sc codes year l1 l2 idx code
              w0 w1 w2 st1 t1 t2 items d s Hsplit H1 Hfetch Hend Hitem Hurl Hne)
    as (rows & Hw & Hin).
  exists rows. split; [|exact Hin].
  unfold run_years in *. rewrite (for_app_run _ _ _ _ _ _ _ _ H0).
  cbn [for_]. rewrite bind_run.
  destruct (handle_year session_request sc codes year w0) as [[[[]|e] w3] t3];
    [|discriminate Hend].
  cbn [for_ mret M_ret snd] in *. rewrite app_nil_r, written_app, Hw. reflexivity.
Qed.

(** C1. In every run, over any list of years and any list of codes, each
    table written has pairwise distinct [url] fields; this holds of the year
    loop and of [main] of both scripts, the one set of a year being shared
    by all its codes.  The set is reset at the start of each year: after any
    years that ended normally, the next year runs its loop over the codes
    from no rows and the empty set, in the world reached; and so, when that
    year ends normally, the resolved URL of every record fetched in it with
    a non-blank URL is in the table of that year, whether or not an earlier
    year has written the same URL. *)
Theorem output_urls_distinct (read_csv : pystr → W → exn + list csv_row)
    (sc : script) :
  (∀ codes years w,
     Forall (tables (λ _ rows, NoDup (url <$> rows)))
            (run_years session_request sc codes years w).2) ∧
  (∀ w,
     Forall (tables (λ _ rows, NoDup (url <$> rows)))
            (main session_request read_csv sc w).2) ∧
  (∀ codes years1 year years2 w w1 t1,
     run_years session_request sc codes years1 w = (Ret tt, w1, t1) →
     run_years session_request sc codes (years1 ++ year :: years2) w =
     (let '(r, w2, t2) :=
        (st ← for_ (enumerate codes 1)
                (handle_code session_request sc year (Z.of_nat (length codes)))
                ([], ∅);
         write_summary sc year st.1;;
         run_years session_request sc codes years2) w1 in
      (r, w2, t1 ++ EvPrint (YearBanner year) :: t2))) ∧
  (∀ codes years1 year l1 idx code l2 w w0 t0 st1 w1 t1 items w2 t2 d s,
     run_years session_request sc codes years1 w = (Ret tt, w0, t0) →
     enumerate codes 1 = l1 ++ (idx, code) :: l2 →
     for_ l1 (handle_code session_request sc year (Z.of_nat (length codes))) ([], ∅) w0
       = (Ret st1, w1, t1) →
     fetch_reports_for_year session_request code year w1
       = (Ret (PList items), w2, t2) →
     (handle_year session_request sc codes year w0).1.1 = Ret tt →
     PDict d ∈ items → lookup_last (lit "URL") d = Some (PStr s) → strip s ≠ [] →
     ∃ rows,
       written (run_years session_request sc codes (years1 ++ [year]) w).2
         = written t0 ++ [(csv_name sc year, rows)] ∧
       pdf_url (strip s) ∈ url <$> rows).
Proof.
  split; [|split; [|split]].
  - intros codes years w.
    eapply Forall_impl; [apply (run_years_tables session_request sc codes years w)|].
    intros ev. apply tables_impl. intros header rows (_ & _ & Hnd & _). exact Hnd.
  - intros w.
    eapply Forall_impl; [apply (main_tables session_request read_csv sc w)|].
    intros ev. apply tables_impl. intros header rows (_ & _ & Hnd & _). exact Hnd.
  - intros codes years1 year years2 w w1 t1. apply run_years_next_year.
  - intros codes years1 year l1 idx code l2 w w0 t0 st1 w1 t1 items w2 t2 d s.
    apply run_years_year_records.
Qed.

End YearSet.

Lemma output_urls_distinct_witness :
  let w := [ Scripted.ok [ Scripted.record "Report" "2022-03-30" "/a/r.pdf" ];
             Scripted.ok [ Scripted.record "Report" "2023-03-30" "/a/r.pdf" ] ] in
  ∃ rows,
    written (run_years Scripted.session_request Mainboard [lit "600000"]
               ([2022] ++ [2023]) w).2
    = [ (lit "summary_mainboard_links_2022.csv",
         [ {| code := lit "600000"; title := lit "Report"; date := lit "2022-03-30";
              url := lit "https://static.sse.com.cn/a/r.pdf" |} ]) ]
      ++ [(csv_name Mainboard 2023, rows)] ∧
    lit "https://static.sse.com.cn/a/r.pdf" ∈ url <$> rows.
Proof.
  intros w.
  pose (w0 := [ Scripted.ok [ Scripted.record "Report" "2023-03-30" "/a/r.pdf" ] ]).
  destruct (proj2 (proj2 (proj2
              (output_urls_distinct Scripted.session_request (Scripted.read_csv None)
                 Mainboard)))
              [lit "600000"] [2022] 2023 [] 1 (lit "600000") [] w w0
              (run_years Scripted.session_request Mainboard [lit "600000"] [2022] w).2
              ([], ∅) w0 []
              [Scripted.record "Report" "2023-03-30" "/a/r.pdf"] []
              (fetch_reports_for_year Scripted.session_request (lit "600000") 2023 w0).2
              [ (lit "TITLE", PStr (lit "Report")); (lit "SSEDATE", PStr (lit "2023-03-30"));
                (lit "URL", PStr (lit "/a/r.pdf")) ]
              (lit "/a/r.pdf")) as (rows & Hw & Hin).
  - vm_compute. reflexivity.
  - reflexivity.
  - reflexivity.
  - vm_compute. reflexivity.
  - vm_compute. reflexivity.
  - left.
  - vm_compute. reflexivity.
  - vm_compute. discriminate.
  - exists rows. split; [|exact Hin]. rewrite Hw. f_equal.
Defined.
